(** * validated_data: schema-validated proxy types

    A shallow embedding of [validated_data.py]: the metaclass
    [ValidatedMeta] (its [__new__], the [patched] initializer it installs
    and its [__str__]) and the class factory [validated_by] with its
    class [GenericWrappedData].

    Python objects live in an explicit store.  Type objects and proxy
    instances are allocated at fresh indices and are referred to by these
    indices, so that reference identity is equality of indices.  Code that
    can raise returns a [result]; code with effects threads the store
    through a small state-and-error monad [M]. *)

From Stdlib Require Import ZArith String List Bool Lia.
From stdpp Require Import base option list strings gmap.

Local Open Scope string_scope.
Local Open Scope list_scope.
#[local] Set Warnings "-register-all".

(** ** Exceptions and results *)

Inductive exn : Type :=
| AssertionError
| TypeError (msg : string)
| ValueError (msg : string)
| AttributeError (attr : string)
| KeyError (key : string)
| IndexError
| SchemaError (msg : string)
| UserError (cls msg : string).

Inductive result (A : Type) : Type :=
| Ok (a : A)
| Raise (e : exn).
Arguments Ok {A} a.
Arguments Raise {A} e.

(** ** Values

    First-order Python data, as it is handed to constructors and to
    [validate].  [VRef i] is a reference to the proxy instance stored at
    index [i]. *)

Inductive value : Type :=
| VNone
| VBool (b : bool)
| VInt (z : Z)
| VStr (s : string)
| VList (items : list value)
| VDict (items : list (value * value))
| VRef (i : nat).

(** ** Classes of the objects a class body can hold

    The classes of the [schema] library: [Or] derives from [And],
    [Optional] from [Schema]; [Use] and [Regex] are validators that derive
    from [object] only.  [CSub name base] is a class derived from [base]
    elsewhere. *)

Inductive pyclass : Type :=
| CObject
| CNoneType | CBool | CInt | CStr | CList | CDict
| CFunction
| CProxy
| CSchema | CAnd | COr | COptional | CUse | CRegex
| CSub (name : string) (base : pyclass).

#[global] Instance pyclass_eq_dec : EqDecision pyclass.
Proof. solve_decision. Defined.

Fixpoint mro (c : pyclass) : list pyclass :=
  match c with
  | CObject => [CObject]
  | CBool => [CBool; CInt; CObject]
  | COr => [COr; CAnd; CObject]
  | COptional => [COptional; CSchema; CObject]
  | CSub n b => CSub n b :: mro b
  | _ => [c; CObject]
  end.

Definition issubclass (c cls : pyclass) : bool := bool_decide (cls ∈ mro c).

(** ** The store *)

(** A proxy instance: its type and the slot for the wrapped object, empty
    until the proxy's initializer has run. *)
Record proxy_obj : Type := {
  ob_type : nat;
  ob_wrapped : option value
}.

(** Calls of a schema's [validate], in the order they were made. *)
Inductive event : Type :=
| EvValidate (schema_id : nat) (arg : value).

Record heap : Type := {
  hp_objs : list proxy_obj;
  hp_trace : list event
}.

(** A validator of the [schema] library: an object (identified by [sc_id])
    of class [sc_class] whose [validate] returns a value or raises. *)
Record validator : Type := {
  sc_id : nat;
  sc_class : pyclass;
  sc_validate : value → result value
}.

(** A plain function: the number of positional parameters it declares
    (the receiver included) and what its body does with the store of
    instances. *)
Record func : Type := {
  fn_name : string;
  fn_arity : nat;
  fn_body : list value → heap → result unit * heap
}.

(** What a class namespace can hold.  [OPatched schema old_init] is the
    closure [patched] that [ValidatedMeta.__new__] builds: it captures
    [schema] and [old_init], and [wraps(old_init)] gives it the metadata
    of [old_init]. *)
Inductive pyobj : Type :=
| OVal (v : value)
| OSchema (s : validator)
| OFunc (f : func)
| OPatched (schema old_init : pyobj).

Inductive base : Type :=
| ObjectProxy
| BaseType (ref : nat).

Record type_obj : Type := {
  ty_name : string;
  ty_bases : list base;
  ty_dict : gmap string pyobj
}.

Record pystate : Type := {
  st_types : list type_obj;
  st_heap : heap
}.

Definition heap0 : heap := {| hp_objs := []; hp_trace := [] |}.
Definition state0 : pystate := {| st_types := []; st_heap := heap0 |}.

(** ** The monad *)

Definition M (A : Type) : Type := pystate → result A * pystate.

Definition ret {A} (a : A) : M A := fun st => (Ok a, st).
Definition raise {A} (e : exn) : M A := fun st => (Raise e, st).
Definition bind {A B} (m : M A) (k : A → M B) : M B :=
  fun st =>
    match m st with
    | (Ok a, st') => k a st'
    | (Raise e, st') => (Raise e, st')
    end.

Declare Scope py_scope.
Delimit Scope py_scope with py.
Notation "x <- m ;; k" := (bind m (fun x => k))
  (at level 100, m at next level, k at level 200, right associativity) : py_scope.
Notation "m ;; k" := (bind m (fun _ => k))
  (at level 100, k at level 200, right associativity) : py_scope.
Local Open Scope py_scope.

Definition of_result {A} (r : result A) : M A :=
  match r with Ok a => ret a | Raise e => raise e end.

Definition lift_heap {A} (f : heap → result A * heap) : M A :=
  fun st =>
    let '(r, h) := f (st_heap st) in
    (r, {| st_types := st_types st; st_heap := h |}).

(** [assert b] *)
Definition py_assert (b : bool) : M unit :=
  if b then ret tt else raise AssertionError.

(** [d[key]] on a namespace *)
Definition dict_getitem (d : gmap string pyobj) (key : string) : M pyobj :=
  match d !! key with
  | Some o => ret o
  | None => raise (KeyError key)
  end.

(** [l[i]] on a list *)
Definition list_getitem (l : list value) (i : nat) : M value :=
  match l !! i with
  | Some v => ret v
  | None => raise IndexError
  end.

(** [type(o)] *)
Definition py_type (o : pyobj) : pyclass :=
  match o with
  | OVal VNone => CNoneType
  | OVal (VBool _) => CBool
  | OVal (VInt _) => CInt
  | OVal (VStr _) => CStr
  | OVal (VList _) => CList
  | OVal (VDict _) => CDict
  | OVal (VRef _) => CProxy
  | OSchema s => sc_class s
  | OFunc _ => CFunction
  | OPatched _ _ => CFunction
  end.

(** ** The collaborators *)

(** [schema.validate(x)]: the call is recorded, then the validator
    answers.  An object without a [validate] method raises
    [AttributeError]. *)
Definition call_validate (schema : pyobj) (x : value) : M value :=
  match schema with
  | OSchema s =>
      fun st =>
        let h := st_heap st in
        let st' := {| st_types := st_types st;
                      st_heap := {| hp_objs := hp_objs h;
                                    hp_trace := hp_trace h ++ [EvValidate (sc_id s) x] |} |} in
        of_result (sc_validate s x) st'
  | _ => raise (AttributeError "validate")
  end.

(** Modelled from the spec: the proxy base [ObjectProxy] belongs to the
    [wrapt] library and is not in the source.  It has a slot of its own
    for the wrapped object and an initializer that stores into that slot.
    [ObjectProxy.__new__] makes a fresh instance whose slot is empty; it
    takes any argument list. *)
Definition ObjectProxy_new (T : nat) : M nat :=
  fun st =>
    let h := st_heap st in
    (Ok (length (hp_objs h)),
     {| st_types := st_types st;
        st_heap := {| hp_objs := hp_objs h ++ [{| ob_type := T; ob_wrapped := None |}];
                      hp_trace := hp_trace h |} |}).

(** Modelled from the spec: [ObjectProxy.__init__(self, wrapped)] stores
    [wrapped] in the slot of [self]. *)
Definition ObjectProxy_init (self wrapped : value) (h : heap) : result unit * heap :=
  match self with
  | VRef i =>
      match hp_objs h !! i with
      | Some o =>
          (Ok tt,
           {| hp_objs := <[i := {| ob_type := ob_type o; ob_wrapped := Some wrapped |}]> (hp_objs h);
              hp_trace := hp_trace h |})
      | None => (Raise (TypeError "descriptor '__init__' requires an ObjectProxy"), h)
      end
  | _ => (Raise (TypeError "descriptor '__init__' requires an ObjectProxy"), h)
  end.

(** [type.__new__(mcs, name, bases, nmspc)]: the name has to be a [str];
    the new type object is stored at a fresh index.  The bases are taken
    to be compatible. *)
Definition type_new (name : pyobj) (bases : list base) (nmspc : gmap string pyobj) : M nat :=
  match name with
  | OVal (VStr s) =>
      fun st =>
        (Ok (length (st_types st)),
         {| st_types := st_types st ++ [{| ty_name := s; ty_bases := bases; ty_dict := nmspc |}];
            st_heap := st_heap st |})
  | _ => raise (TypeError "type.__new__() argument 1 must be str")
  end.

(** The initializer that a type inherits from the proxy when its class
    body has none. *)
Definition ObjectProxy_init_method : func :=
  {| fn_name := "__init__";
     fn_arity := 2;
     fn_body := fun args h =>
       match args with
       | [self; wrapped] => ObjectProxy_init self wrapped h
       | _ => (Raise (TypeError "__init__() got a wrong number of positional arguments"), h)
       end |}.

(** ** ValidatedMeta *)

(** The body of [patched], whose only parameter is the tuple [args] of
    its positional arguments; [old_init] is given as the call of the
    captured initializer. *)
Definition patched (schema : pyobj) (old_init : list value → M unit)
    (args : list value) : M unit :=
  py_assert (bool_decide (length args = 2)) ;;
  let args_list := args in
  raw <- list_getitem args_list 1 ;;
  validated <- call_validate schema raw ;;
  let args_list := <[1 := validated]> args_list in
  old_init args_list.

(** Calling an object with positional arguments. *)
Fixpoint call (f : pyobj) (args : list value) : M unit :=
  match f with
  | OFunc fn =>
      if bool_decide (length args = fn_arity fn)
      then lift_heap (fn_body fn args)
      else raise (TypeError (fn_name fn +:+ "() got a wrong number of positional arguments"))
  | OPatched schema old_init => patched schema (call old_init) args
  | _ => raise (TypeError "object is not callable")
  end.

(** [ValidatedMeta.__new__(mcs, name, bases, nmspc)]; [mcs] is
    [ValidatedMeta] itself. *)
Definition ValidatedMeta_new (name : string) (bases : list base)
    (nmspc : gmap string pyobj) : M nat :=
  py_assert (bool_decide (is_Some (nmspc !! "__schema__"))) ;;
  schema <- dict_getitem nmspc "__schema__" ;;
  py_assert (existsb (issubclass (py_type schema)) [CSchema; CAnd; COr]) ;;
  let name :=
    match nmspc !! "__name__" with
    | Some n => n
    | None => OVal (VStr name)
    end in
  py_assert (bool_decide (is_Some (nmspc !! "__init__"))) ;;
  old_init <- dict_getitem nmspc "__init__" ;;
  let nmspc := <["__init__" := OPatched schema old_init]> nmspc in
  type_new name bases nmspc.

(** [cls.__name__] on a type object: the name the type was created
    with. *)
Definition type_name (T : nat) : M string :=
  fun st =>
    match st_types st !! T with
    | None => (Raise (TypeError "not a type"), st)
    | Some cls => (Ok (ty_name cls), st)
    end.

(** What a type object answers for a name that its class body does not
    bind: the attribute that its bases ([ObjectProxy], [object]) or
    [type] have under that name, or [AttributeError].  This is the
    business of the interpreter and of the proxy library; it is a
    parameter here. *)
Class Inherited : Type :=
  inherited_getattr : type_obj → string → result pyobj.

(** [cls.attr] on a type object: [__name__] is answered by the type
    itself; a name that the class body binds is read from the class
    namespace; any other name is looked up further. *)
Definition type_getattr `{inh : Inherited} (T : nat) (attr : string) : M pyobj :=
  if bool_decide (attr = "__name__") then
    n <- type_name T ;; ret (OVal (VStr n))
  else
    fun st =>
      match st_types st !! T with
      | None => (Raise (TypeError "not a type"), st)
      | Some cls =>
          match ty_dict cls !! attr with
          | Some o => (Ok o, st)
          | None => (inherited_getattr cls attr, st)
          end
      end.

(** [ValidatedMeta.__str__(self)] *)
Definition ValidatedMeta_str (self : nat) : M string :=
  n <- type_name self ;;
  ret ("<schema-validated data: " +:+ n +:+ ">").

(** ** validated_by *)

(** The docstring of [GenericWrappedData], as the class body has it
    between its quotes. *)
Definition GenericWrappedData_doc : string :=
  "
        This class serves as a wrapper for schema-validated data.
        Data passed into the constructor will be validated by the provided schema, and the result of .validate will
            be set onto this object's .data member variable.
        Because this object inherits ObjectProxy, this wrapper will be near-completely transparent.  All arithmetic,
            subscripting, and mutation operations on this object will be passed down to the internal object.
            Thus, users of this object oftentimes don't need to be aware of the wrapper at all.
        Users may access the schema used to validate the data by accessing the .__schema__ member variable.
        ".

(** [GenericWrappedData.__init__(self, validated_data)], which calls
    [super().__init__(validated_data)] *)
Definition GenericWrappedData_init : func :=
  {| fn_name := "__init__";
     fn_arity := 2;
     fn_body := fun args h =>
       match args with
       | [self; validated_data] => ObjectProxy_init self validated_data h
       | _ => (Raise (TypeError "__init__() got a wrong number of positional arguments"), h)
       end |}.

(** The namespace that the class body of [GenericWrappedData] builds. *)
Definition GenericWrappedData_body (schema name : pyobj) : gmap string pyobj :=
  <["__init__" := OFunc GenericWrappedData_init]>
  (<["__schema__" := schema]>
  (<["__name__" := name]>
  (<["__doc__" := OVal (VStr GenericWrappedData_doc)]>
  (<["__qualname__" := OVal (VStr "validated_by.<locals>.GenericWrappedData")]>
  (<["__module__" := OVal (VStr "validated_data")]> ∅))))).

Definition default_name : pyobj := OVal (VStr "ValidatedData").

(** [validated_by(schema, name)]: the class statement runs the metaclass
    and the new type is returned. *)
Definition validated_by (schema name : pyobj) : M nat :=
  ValidatedMeta_new "GenericWrappedData" [ObjectProxy]
    (GenericWrappedData_body schema name).

(** ** Construction of an instance

    [T(args...)]: the instance is allocated by the [__new__] inherited
    from the proxy, then [T.__init__(obj, args...)] runs; the reference is
    handed out only when the initializer has returned.  A type made by
    the metaclass always has an [__init__] of its own, namely [patched].
    Calls are given by their positional arguments, the only ones that
    [patched] declares; class bodies with a [__new__] of their own are
    not considered. *)
Definition type_call (T : nat) (args : list value) : M value :=
  fun st =>
    match st_types st !! T with
    | None => (Raise (TypeError "object is not callable"), st)
    | Some cls =>
        (obj <- ObjectProxy_new T ;;
         let init := default (OFunc ObjectProxy_init_method) (ty_dict cls !! "__init__") in
         call init (VRef obj :: args) ;;
         ret (VRef obj)) st
    end.

(** ** The transparent proxy

    Modelled from the spec: the forwarding of [ObjectProxy] is not in the
    source.  The proxy forwards every operation (attribute access, item
    access, comparison, arithmetic) to the wrapped object, except for a
    small set of members of its own.  What the operations do on plain
    data is the business of Python's data model, which is a parameter
    here. *)

Inductive binop : Type := Add | Sub | Mul.

Record data_model : Type := {
  dm_getattr : value → string → result value;
  dm_getitem : value → value → result value;
  dm_eq : value → value → result value;
  dm_binop : binop → value → value → result value
}.

Section Proxy.
Variable dm : data_model.

(** Modelled from the spec: [self.__wrapped__], the slot. *)
Definition proxy_wrapped (self : nat) : M value :=
  fun st =>
    match hp_objs (st_heap st) !! self with
    | None => (Raise (TypeError "not a proxy"), st)
    | Some o =>
        match ob_wrapped o with
        | Some w => (Ok w, st)
        | None => (Raise (ValueError "wrapper has not been initialized"), st)
        end
    end.

(** Modelled from the spec: the members that the proxy keeps for itself,
    [__wrapped__] and the names that start with [_self_]. *)
Definition proxy_member (name : string) : bool :=
  bool_decide (name = "__wrapped__") || String.prefix "_self_" name.

(** Modelled from the spec: the schema that an instance exposes, which
    is the [__schema__] of its type. *)
Definition exposed_schema (st : pystate) (o : proxy_obj) : option pyobj :=
  st_types st !! ob_type o ≫= (fun cls => ty_dict cls !! "__schema__").

(** Modelled from the spec: [self.name].  The instance exposes the schema
    it was validated against; the proxy answers for its own members; any
    other name is forwarded to the wrapped object. *)
Definition proxy_getattr (self : nat) (name : string) : M pyobj :=
  fun st =>
    match hp_objs (st_heap st) !! self with
    | None => (Raise (TypeError "not a proxy"), st)
    | Some o =>
        match (if bool_decide (name = "__schema__") then exposed_schema st o else None) with
        | Some a => (Ok a, st)
        | None =>
            if bool_decide (name = "__wrapped__") then
              (w <- proxy_wrapped self ;; ret (OVal w)) st
            else if String.prefix "_self_" name then
              (Raise (AttributeError name), st)
            else
              (w <- proxy_wrapped self ;;
               a <- of_result (dm_getattr dm w name) ;;
               ret (OVal a)) st
        end
    end.

(** Modelled from the spec: [self[key]] *)
Definition proxy_getitem (self : nat) (key : value) : M value :=
  w <- proxy_wrapped self ;; of_result (dm_getitem dm w key).

(** Modelled from the spec: [self == other] *)
Definition proxy_eq (self : nat) (other : value) : M value :=
  w <- proxy_wrapped self ;; of_result (dm_eq dm w other).

(** Modelled from the spec: [self op other] *)
Definition proxy_binop (op : binop) (self : nat) (other : value) : M value :=
  w <- proxy_wrapped self ;; of_result (dm_binop dm op w other).

(** Modelled from the spec: the reflected operation, [other op self] *)
Definition proxy_rbinop (op : binop) (other : value) (self : nat) : M value :=
  w <- proxy_wrapped self ;; of_result (dm_binop dm op other w).
End Proxy.

(** [isinstance(VRef i, T)] for the types of the store, none of which
    derives from another. *)
Definition isinstance (st : pystate) (i T : nat) : bool :=
  match hp_objs (st_heap st) !! i with
  | Some o => bool_decide (ob_type o = T)
  | None => false
  end.

(** ** The schema library's combinators

    The module imports [Schema], [And] and [Or] from the [schema]
    library.  A validator is known by its class and its [validate]; the
    combinators below build validators of the three classes. *)

(** [Schema(check)] *)
Definition Schema (id : nat) (check : value → result value) : validator :=
  {| sc_id := id; sc_class := CSchema; sc_validate := check |}.

(** [And(...).validate]: the data goes through every part in turn. *)
Fixpoint and_validate (parts : list validator) (data : value) : result value :=
  match parts with
  | [] => Ok data
  | s :: rest =>
      match sc_validate s data with
      | Ok d => and_validate rest d
      | Raise e => Raise e
      end
  end.

(** [Or(...).validate]: the first part that accepts the data answers; a
    [SchemaError] of a part moves on to the next one. *)
Fixpoint or_validate (parts : list validator) (data : value) : result value :=
  match parts with
  | [] => Raise (SchemaError "Or did not validate")
  | s :: rest =>
      match sc_validate s data with
      | Ok d => Ok d
      | Raise (SchemaError _) => or_validate rest data
      | Raise e => Raise e
      end
  end.

Definition And (id : nat) (parts : list validator) : validator :=
  {| sc_id := id; sc_class := CAnd; sc_validate := and_validate parts |}.

Definition Or (id : nat) (parts : list validator) : validator :=
  {| sc_id := id; sc_class := COr; sc_validate := or_validate parts |}.

(** ** Sample schemas and data *)

Module Samples.

(** A mapping with the integer key [x] whose value is positive. *)
Definition positive_x_check (v : value) : result value :=
  match v with
  | VDict [(VStr "x", VInt z)] =>
      if (0 <? z)%Z then Ok v else Raise (SchemaError "x should be positive")
  | _ => Raise (SchemaError "expected a mapping with the key x")
  end.

Definition positive_x : validator := Schema 1 positive_x_check.

(** [Schema(Use(int))] on booleans and integers: the result is coerced. *)
Definition use_int_check (v : value) : result value :=
  match v with
  | VInt z => Ok (VInt z)
  | VBool b => Ok (VInt (if b then 1 else 0))
  | _ => Raise (SchemaError "int(...) raised")
  end.

Definition use_int : validator := Schema 2 use_int_check.

(** [Use(int)] alone is a validator but no [Schema], [And] or [Or]. *)
Definition bare_use : validator :=
  {| sc_id := 3; sc_class := CUse; sc_validate := use_int_check |}.

(** An initializer with two parameters beside the receiver. *)
Definition init_two_values : func :=
  {| fn_name := "__init__";
     fn_arity := 3;
     fn_body := fun args h =>
       match args with
       | [self; a; _] => ObjectProxy_init self a h
       | _ => (Raise (TypeError "__init__() got a wrong number of positional arguments"), h)
       end |}.

(** A data model for integers and string-keyed mappings. *)
Fixpoint assoc_str (k : string) (items : list (value * value)) : result value :=
  match items with
  | [] => Raise (KeyError k)
  | (VStr k', v) :: rest => if bool_decide (k = k') then Ok v else assoc_str k rest
  | _ :: rest => assoc_str k rest
  end.

(** An initializer of a caller's class body: it wraps a one-element list
    that holds its argument. *)
Definition init_boxed : func :=
  {| fn_name := "__init__";
     fn_arity := 2;
     fn_body := fun args h =>
       match args with
       | [self; data] => ObjectProxy_init self (VList [data]) h
       | _ => (Raise (TypeError "__init__() got a wrong number of positional arguments"), h)
       end |}.

(** An inherited lookup for examples: a class body without a docstring
    leaves [__doc__] at [None]; no other name is found. *)
Definition sample_inherited : Inherited :=
  fun _ attr =>
    if bool_decide (attr = "__doc__") then Ok (OVal VNone)
    else Raise (AttributeError attr).

Definition sample_dm : data_model :=
  {| dm_getattr := fun _ name => Raise (AttributeError name);
     dm_getitem := fun v key =>
       match v, key with
       | VDict items, VStr k => assoc_str k items
       | _, _ => Raise (TypeError "object is not subscriptable")
       end;
     dm_eq := fun a b =>
       match a, b with
       | VInt x, VInt y => Ok (VBool (x =? y)%Z)
       | _, _ => Ok (VBool false)
       end;
     dm_binop := fun op a b =>
       match a, b with
       | VInt x, VInt y =>
           Ok (VInt (match op with Add => x + y | Sub => x - y | Mul => x * y end))
       | _, _ => Raise (TypeError "unsupported operand type(s)")
       end |}.

End Samples.

(** ** States and stores that the statements name

    Type objects are never removed or changed: the table of types only
    grows, and a later state extends an earlier one. *)

Definition extends (st st' : pystate) : Prop :=
  st_types st `prefix_of` st_types st'.

(** The type object that [validated_by schema n] stores. *)
Definition GenericWrappedData_type (schema : pyobj) (n : string) : type_obj :=
  {| ty_name := n;
     ty_bases := [ObjectProxy];
     ty_dict := <["__init__" := OPatched schema (OFunc GenericWrappedData_init)]>
                  (GenericWrappedData_body schema (OVal (VStr n))) |}.

(** The condition of the second assertion of [ValidatedMeta.__new__]. *)
Definition is_schema_class (o : pyobj) : bool :=
  existsb (issubclass (py_type o)) [CSchema; CAnd; COr].

(** The store after [type.__new__] has stored [cls]. *)
Definition add_type (cls : type_obj) (st : pystate) : pystate :=
  {| st_types := st_types st ++ [cls]; st_heap := st_heap st |}.

(** The store after a call of [s.validate(raw)]. *)
Definition after_validate (s : validator) (raw : value) (st : pystate) : pystate :=
  {| st_types := st_types st;
     st_heap := {| hp_objs := hp_objs (st_heap st);
                   hp_trace := hp_trace (st_heap st) ++ [EvValidate (sc_id s) raw] |} |}.

(** The store after [T(raw)] when the slot got [slot]. *)
Definition after_call (T : nat) (s : validator) (raw : value)
    (slot : option value) (st : pystate) : pystate :=
  {| st_types := st_types st;
     st_heap := {| hp_objs := hp_objs (st_heap st) ++ [{| ob_type := T; ob_wrapped := slot |}];
                   hp_trace := hp_trace (st_heap st) ++ [EvValidate (sc_id s) raw] |} |}.

(** The store after [ObjectProxy.__new__]. *)
Definition after_new (T : nat) (st : pystate) : pystate :=
  {| st_types := st_types st;
     st_heap := {| hp_objs := hp_objs (st_heap st) ++ [{| ob_type := T; ob_wrapped := None |}];
                   hp_trace := hp_trace (st_heap st) |} |}.

(** [sub] occurs in [s]. *)
Definition contains (sub s : string) : Prop :=
  ∃ pre post, s = pre +:+ sub +:+ post.

Definition result_map {A B} (f : A → B) (r : result A) : result B :=
  match r with Ok a => Ok (f a) | Raise e => Raise e end.

(** ** The invariant of the instances

    A client of the module calls the factory and constructs instances of
    the types it got.  It holds the references that the constructions
    returned. *)

Record world : Type := {
  w_state : pystate;
  w_held : list nat
}.

Definition world0 : world := {| w_state := state0; w_held := [] |}.

Inductive client_step : world → world → Prop :=
| step_factory w schema name res st' :
    validated_by schema name (w_state w) = (res, st') →
    client_step w {| w_state := st'; w_held := w_held w |}
| step_construct w T args i st' :
    type_call T args (w_state w) = (Ok (VRef i), st') →
    client_step w {| w_state := st'; w_held := i :: w_held w |}
| step_construct_raise w T args e st' :
    type_call T args (w_state w) = (Raise e, st') →
    client_step w {| w_state := st'; w_held := w_held w |}.

Inductive reachable : world → Prop :=
| reach_init : reachable world0
| reach_step w w' : reachable w → client_step w w' → reachable w'.

(** The slot of [o] holds [r], and [r] was returned by the [validate] of
    the schema of [o]'s type, in a call that the trace has. *)
Definition validated_slot (st : pystate) (o : proxy_obj) (r : value) : Prop :=
  ∃ s n v,
    st_types st !! ob_type o = Some (GenericWrappedData_type (OSchema s) n) ∧
    sc_validate s v = Ok r ∧
    EvValidate (sc_id s) v ∈ hp_trace (st_heap st).

Definition store_inv (st : pystate) : Prop :=
  (∀ T cls, st_types st !! T = Some cls →
     ∃ s n, cls = GenericWrappedData_type (OSchema s) n) ∧
  (∀ i o r, hp_objs (st_heap st) !! i = Some o → ob_wrapped o = Some r →
     validated_slot st o r).

Definition world_inv (w : world) : Prop :=
  store_inv (w_state w) ∧
  ∀ i, i ∈ w_held w →
    ∃ o r, hp_objs (st_heap (w_state w)) !! i = Some o ∧ ob_wrapped o = Some r.

(** * Properties *)

Lemma extends_refl st : extends st st.
Proof. by unfold extends. Qed.

Lemma extends_trans st1 st2 st3 : extends st1 st2 → extends st2 st3 → extends st1 st3.
Proof. unfold extends. by etrans. Qed.

Lemma extends_lookup st st' T cls :
  extends st st' → st_types st !! T = Some cls → st_types st' !! T = Some cls.
Proof. intros Hext Hl. by eapply prefix_lookup_Some. Qed.

Lemma extends_add_type cls st : extends st (add_type cls st).
Proof. unfold extends, add_type; simpl. by apply prefix_app_r. Qed.

Lemma add_type_lookup cls st : st_types (add_type cls st) !! length (st_types st) = Some cls.
Proof. unfold add_type; simpl. by rewrite lookup_app_r, Nat.sub_diag. Qed.

(** ** The metaclass, equationally *)

Lemma ValidatedMeta_new_unfold name bases nmspc st :
  ValidatedMeta_new name bases nmspc st =
    match nmspc !! "__schema__" with
    | None => (Raise AssertionError, st)
    | Some schema =>
        if is_schema_class schema then
          match nmspc !! "__init__" with
          | None => (Raise AssertionError, st)
          | Some old_init =>
              type_new (default (OVal (VStr name)) (nmspc !! "__name__")) bases
                (<["__init__" := OPatched schema old_init]> nmspc) st
          end
        else (Raise AssertionError, st)
    end.
Proof.
  unfold ValidatedMeta_new, bind, dict_getitem.
  destruct (nmspc !! "__schema__") as [schema|]; [|done].
  cbn -[is_schema_class existsb]. fold (is_schema_class schema).
  destruct (is_schema_class schema); [|done].
  destruct (nmspc !! "__init__") as [old_init|]; [|done].
  by destruct (nmspc !! "__name__").
Qed.

Lemma type_new_inv name bases nmspc st T st' :
  type_new name bases nmspc st = (Ok T, st') →
  ∃ n, name = OVal (VStr n) ∧ T = length (st_types st) ∧
       st' = add_type {| ty_name := n; ty_bases := bases; ty_dict := nmspc |} st.
Proof.
  unfold type_new, raise.
  destruct name as [[]| | |]; intros [= <- <-]; eauto.
Qed.

Lemma type_new_raise name bases nmspc st e st' :
  type_new name bases nmspc st = (Raise e, st') → st' = st.
Proof.
  unfold type_new, raise.
  by destruct name as [[]| | |]; intros [=].
Qed.

(** A successful definition: what was in the namespace and what is stored. *)
Lemma ValidatedMeta_new_inv name bases nmspc st T st' :
  ValidatedMeta_new name bases nmspc st = (Ok T, st') →
  ∃ schema old_init n,
    nmspc !! "__schema__" = Some schema ∧ is_schema_class schema = true ∧
    nmspc !! "__init__" = Some old_init ∧
    default (OVal (VStr name)) (nmspc !! "__name__") = OVal (VStr n) ∧
    T = length (st_types st) ∧
    st' = add_type {| ty_name := n; ty_bases := bases;
                      ty_dict := <["__init__" := OPatched schema old_init]> nmspc |} st.
Proof.
  rewrite ValidatedMeta_new_unfold.
  destruct (nmspc !! "__schema__") as [schema|]; [|done].
  destruct (is_schema_class schema) eqn:Hcls; [|done].
  destruct (nmspc !! "__init__") as [old_init|]; [|done].
  intros (n & Hn & -> & ->)%type_new_inv.
  by exists schema, old_init, n.
Qed.

(** A definition that raises leaves the store as it was. *)
Lemma ValidatedMeta_new_raise name bases nmspc st e st' :
  ValidatedMeta_new name bases nmspc st = (Raise e, st') → st' = st.
Proof.
  rewrite ValidatedMeta_new_unfold.
  destruct (nmspc !! "__schema__") as [schema|]; [|by intros [=]].
  destruct (is_schema_class schema); [|by intros [=]].
  destruct (nmspc !! "__init__") as [old_init|]; [|by intros [=]].
  apply type_new_raise.
Qed.

Lemma GenericWrappedData_body_schema schema name :
  GenericWrappedData_body schema name !! "__schema__" = Some schema.
Proof. reflexivity. Qed.

Lemma GenericWrappedData_body_init schema name :
  GenericWrappedData_body schema name !! "__init__" = Some (OFunc GenericWrappedData_init).
Proof. reflexivity. Qed.

Lemma GenericWrappedData_body_name schema name :
  GenericWrappedData_body schema name !! "__name__" = Some name.
Proof. reflexivity. Qed.

(** What the factory stores when it returns a type. *)
Lemma validated_by_inv schema name st T st' :
  validated_by schema name st = (Ok T, st') →
  ∃ n, name = OVal (VStr n) ∧ is_schema_class schema = true ∧
       T = length (st_types st) ∧
       st' = add_type (GenericWrappedData_type schema n) st.
Proof.
  unfold validated_by.
  intros (schema' & old_init & n & Hs & Hcls & Hi & Hn & -> & ->)%ValidatedMeta_new_inv.
  rewrite GenericWrappedData_body_schema in Hs.
  rewrite GenericWrappedData_body_init in Hi.
  rewrite GenericWrappedData_body_name in Hn. simpl in Hn.
  simplify_eq. by exists n.
Qed.

(** The factory returns a type for every object of a schema class and
    every [str] name. *)
Lemma validated_by_ok schema n st :
  is_schema_class schema = true →
  validated_by schema (OVal (VStr n)) st =
    (Ok (length (st_types st)), add_type (GenericWrappedData_type schema n) st).
Proof.
  intros Hcls. unfold validated_by. rewrite ValidatedMeta_new_unfold.
  rewrite GenericWrappedData_body_schema, Hcls, GenericWrappedData_body_init.
  by rewrite GenericWrappedData_body_name.
Qed.

Lemma validated_by_type schema name st T st' st'' :
  validated_by schema name st = (Ok T, st') → extends st' st'' →
  ∃ n, name = OVal (VStr n) ∧
       st_types st'' !! T = Some (GenericWrappedData_type schema n).
Proof.
  intros (n & -> & _ & -> & ->)%validated_by_inv Hext.
  exists n. split; [done|].
  eapply extends_lookup; [done|]. apply add_type_lookup.
Qed.

(** ** Construction *)

Lemma is_schema_class_inv o : is_schema_class o = true → ∃ s, o = OSchema s.
Proof.
  destruct o as [v|s|f|a b]; [by destruct v| by exists s|done|done].
Qed.

Lemma insert_fresh {A} (l : list A) (x y : A) :
  <[length l := y]> (l ++ [x]) = l ++ [y].
Proof. by rewrite insert_app_r_alt, Nat.sub_diag. Qed.

Lemma type_call_unfold st T cls init args :
  st_types st !! T = Some cls →
  ty_dict cls !! "__init__" = Some init →
  type_call T args st =
    match call init (VRef (length (hp_objs (st_heap st))) :: args) (after_new T st) with
    | (Ok _, st') => (Ok (VRef (length (hp_objs (st_heap st)))), st')
    | (Raise e, st') => (Raise e, st')
    end.
Proof.
  intros HT Hi. unfold type_call. rewrite HT, Hi. reflexivity.
Qed.

Lemma GenericWrappedData_type_init schema n :
  ty_dict (GenericWrappedData_type schema n) !! "__init__" =
    Some (OPatched schema (OFunc GenericWrappedData_init)).
Proof. apply lookup_insert_eq. Qed.

Lemma call_patched schema old_init args :
  call (OPatched schema old_init) args = patched schema (call old_init) args.
Proof. reflexivity. Qed.

Lemma patched_validated s old_init self v r st :
  sc_validate s v = Ok r →
  patched (OSchema s) old_init [self; v] st = old_init [self; r] (after_validate s v st).
Proof.
  intros Hv. unfold patched, bind, call_validate. simpl. by rewrite Hv.
Qed.

Lemma patched_rejected s old_init self v e st :
  sc_validate s v = Raise e →
  patched (OSchema s) old_init [self; v] st = (Raise e, after_validate s v st).
Proof.
  intros Hv. unfold patched, bind, call_validate. simpl. by rewrite Hv.
Qed.

Lemma type_call_generic_ok st T s n v r :
  st_types st !! T = Some (GenericWrappedData_type (OSchema s) n) →
  sc_validate s v = Ok r →
  type_call T [v] st =
    (Ok (VRef (length (hp_objs (st_heap st)))), after_call T s v (Some r) st).
Proof.
  intros HT Hv.
  rewrite (type_call_unfold _ _ _ _ _ HT (GenericWrappedData_type_init _ _)).
  unfold after_new, after_call. simpl.
  unfold patched, bind, call_validate. simpl. rewrite Hv. simpl.
  unfold lift_heap, ObjectProxy_init. simpl.
  rewrite lookup_app_r, Nat.sub_diag by done. simpl.
  by rewrite insert_fresh.
Qed.

Lemma type_call_generic_raise st T s n v e :
  st_types st !! T = Some (GenericWrappedData_type (OSchema s) n) →
  sc_validate s v = Raise e →
  type_call T [v] st = (Raise e, after_call T s v None st).
Proof.
  intros HT Hv.
  rewrite (type_call_unfold _ _ _ _ _ HT (GenericWrappedData_type_init _ _)).
  unfold after_new, after_call. simpl.
  unfold patched, bind, call_validate. simpl. by rewrite Hv.
Qed.

Lemma proxy_wrapped_after_call T s v r st :
  proxy_wrapped (length (hp_objs (st_heap st))) (after_call T s v (Some r) st) =
    (Ok r, after_call T s v (Some r) st).
Proof.
  unfold proxy_wrapped, after_call; simpl.
  by rewrite lookup_app_r, Nat.sub_diag.
Qed.

Lemma proxy_wrapped_after_raise T s v st i w :
  fst (proxy_wrapped i (after_call T s v None st)) = Ok w →
  fst (proxy_wrapped i st) = Ok w.
Proof.
  unfold proxy_wrapped, after_call; simpl.
  destruct (decide (i < length (hp_objs (st_heap st)))) as [Hlt|Hge].
  - rewrite lookup_app_l by done.
    destruct (hp_objs (st_heap st) !! i) as [o|]; [|done].
    by destruct (ob_wrapped o).
  - rewrite lookup_app_r by lia.
    by destruct (i - length (hp_objs (st_heap st))) as [|[|k]].
Qed.

Lemma isinstance_after_call T s v slot st :
  isinstance (after_call T s v slot st) (length (hp_objs (st_heap st))) T = true.
Proof.
  unfold isinstance, after_call; simpl.
  rewrite lookup_app_r, Nat.sub_diag by done. simpl.
  by apply bool_decide_eq_true.
Qed.

(** C1: when [S.validate(v)] returns [r], constructing an instance of the
    type the factory made for [S] from [v] succeeds, and the instance
    wraps [r], the result of the validation, whatever [v] was. *)
Theorem construct_wraps_validation_result s name T st0 st1 st v r :
  validated_by (OSchema s) name st0 = (Ok T, st1) →
  extends st1 st →
  sc_validate s v = Ok r →
  ∃ i st',
    type_call T [v] st = (Ok (VRef i), st') ∧
    proxy_wrapped i st' = (Ok r, st') ∧
    isinstance st' i T = true.
Proof.
  intros Hf Hext Hv.
  destruct (validated_by_type _ _ _ _ _ _ Hf Hext) as (n & _ & HT).
  eexists _, _. split; [by eapply type_call_generic_ok|].
  split; [apply proxy_wrapped_after_call | apply isinstance_after_call].
Qed.

Lemma construct_wraps_validation_result_witness :
  ∃ i st',
    type_call 0 [VBool true]
      (add_type (GenericWrappedData_type (OSchema Samples.use_int) "ValidatedData") state0)
      = (Ok (VRef i), st') ∧
    proxy_wrapped i st' = (Ok (VInt 1), st') ∧
    isinstance st' i 0 = true.
Proof.
  apply (construct_wraps_validation_result Samples.use_int default_name 0 state0
           (add_type (GenericWrappedData_type (OSchema Samples.use_int) "ValidatedData") state0)
           _ (VBool true) (VInt 1)).
  - reflexivity.
  - exists []. reflexivity.
  - reflexivity.
Defined.

(** C2: when [S.validate(v)] raises, constructing an instance from [v]
    raises that very error; no reference is handed out, and no proxy of
    the store has its slot filled that did not have it before. *)
Theorem construct_propagates_validation_error s name T st0 st1 st v e :
  validated_by (OSchema s) name st0 = (Ok T, st1) →
  extends st1 st →
  sc_validate s v = Raise e →
  ∃ st',
    type_call T [v] st = (Raise e, st') ∧
    st_types st' = st_types st ∧
    ∀ i w, fst (proxy_wrapped i st') = Ok w → fst (proxy_wrapped i st) = Ok w.
Proof.
  intros Hf Hext Hv.
  destruct (validated_by_type _ _ _ _ _ _ Hf Hext) as (n & _ & HT).
  eexists. split; [by eapply type_call_generic_raise|].
  split; [done|]. intros i w. apply proxy_wrapped_after_raise.
Qed.

Lemma construct_propagates_validation_error_witness :
  ∃ st',
    type_call 0 [VDict [(VStr "x", VInt (-1))]]
      (add_type (GenericWrappedData_type (OSchema Samples.positive_x) "ValidatedData") state0)
      = (Raise (SchemaError "x should be positive"), st') ∧
    st_types st' =
      st_types (add_type (GenericWrappedData_type (OSchema Samples.positive_x) "ValidatedData") state0) ∧
    ∀ i w, fst (proxy_wrapped i st') = Ok w →
           fst (proxy_wrapped i
                  (add_type (GenericWrappedData_type (OSchema Samples.positive_x) "ValidatedData")
                     state0)) = Ok w.
Proof.
  apply (construct_propagates_validation_error Samples.positive_x default_name 0 state0
           (add_type (GenericWrappedData_type (OSchema Samples.positive_x) "ValidatedData") state0)).
  - reflexivity.
  - exists []. reflexivity.
  - reflexivity.
Defined.

(** ** The type object *)

Lemma GenericWrappedData_doc_length : String.length GenericWrappedData_doc = 682.
Proof. reflexivity. Qed.

Lemma type_getattr_lookup `{inh : Inherited} st T cls attr o :
  st_types st !! T = Some cls → attr ≠ "__name__" → ty_dict cls !! attr = Some o →
  type_getattr T attr st = (Ok o, st).
Proof.
  intros HT Hne Ha. unfold type_getattr.
  rewrite bool_decide_eq_false_2 by done. by rewrite HT, Ha.
Qed.

Lemma GenericWrappedData_type_schema schema n :
  ty_dict (GenericWrappedData_type schema n) !! "__schema__" = Some schema.
Proof. reflexivity. Qed.

(** C5: the type that the factory returns has the class attribute
    [__schema__], and its value is the schema object that was passed in,
    with the same identity. *)
Theorem type_exposes_schema `{inh : Inherited} schema name T st0 st1 st :
  validated_by schema name st0 = (Ok T, st1) →
  extends st1 st →
  type_getattr T "__schema__" st = (Ok schema, st) ∧
  ∃ s, schema = OSchema s ∧
       ∀ s', type_getattr T "__schema__" st = (Ok (OSchema s'), st) → sc_id s' = sc_id s.
Proof.
  intros Hf Hext.
  destruct (validated_by_type _ _ _ _ _ _ Hf Hext) as (n & _ & HT).
  assert (Hget : type_getattr T "__schema__" st = (Ok schema, st)).
  { eapply type_getattr_lookup; [done|done|apply GenericWrappedData_type_schema]. }
  split; [done|].
  apply validated_by_inv in Hf as (_ & _ & [s ->]%is_schema_class_inv & _).
  exists s. split; [done|]. intros s' Hs'. rewrite Hget in Hs'. by simplify_eq.
Qed.

Lemma type_exposes_schema_witness :
  type_getattr (inh := Samples.sample_inherited) 0 "__schema__"
    (add_type (GenericWrappedData_type (OSchema Samples.positive_x) "Foo") state0)
  = (Ok (OSchema Samples.positive_x),
     add_type (GenericWrappedData_type (OSchema Samples.positive_x) "Foo") state0).
Proof.
  apply (type_exposes_schema (inh := Samples.sample_inherited)
           (OSchema Samples.positive_x) (OVal (VStr "Foo")) 0 state0
           (add_type (GenericWrappedData_type (OSchema Samples.positive_x) "Foo") state0)).
  - reflexivity.
  - exists []. reflexivity.
Defined.

Lemma ValidatedMeta_str_type st T cls :
  st_types st !! T = Some cls →
  ValidatedMeta_str T st = (Ok ("<schema-validated data: " +:+ ty_name cls +:+ ">"), st).
Proof.
  intros HT. unfold ValidatedMeta_str, bind, type_name. by rewrite HT.
Qed.

(** C8: displaying the type that the factory made under the name [n]
    yields the label [<schema-validated data: n>]: it reads
    [schema-validated data: ] followed by the name, and so contains the
    name. *)
Theorem type_label_shows_name schema n T st0 st1 st :
  validated_by schema (OVal (VStr n)) st0 = (Ok T, st1) →
  extends st1 st →
  ∃ label,
    ValidatedMeta_str T st = (Ok label, st) ∧
    label = "<schema-validated data: " +:+ n +:+ ">" ∧
    contains ("schema-validated data: " +:+ n) label ∧
    contains n label.
Proof.
  intros Hf Hext.
  destruct (validated_by_type _ _ _ _ _ _ Hf Hext) as (n' & [= <-] & HT).
  eexists. split; [by apply ValidatedMeta_str_type|]. simpl.
  split; [done|]. split.
  - by exists "<", ">".
  - by exists "<schema-validated data: ", ">".
Qed.

Lemma type_label_shows_name_witness :
  ∃ label,
    ValidatedMeta_str 0
      (add_type (GenericWrappedData_type (OSchema Samples.positive_x) "Foo") state0)
    = (Ok label, add_type (GenericWrappedData_type (OSchema Samples.positive_x) "Foo") state0) ∧
    label = "<schema-validated data: Foo>" ∧
    contains "schema-validated data: Foo" label ∧
    contains "Foo" label.
Proof.
  apply (type_label_shows_name (OSchema Samples.positive_x) "Foo" 0 state0
           (add_type (GenericWrappedData_type (OSchema Samples.positive_x) "Foo") state0)).
  - reflexivity.
  - exists []. reflexivity.
Defined.

(** ** Independence of the generated types *)

Lemma isinstance_functional st i T1 T2 :
  T1 ≠ T2 → isinstance st i T1 = true → isinstance st i T2 = false.
Proof.
  unfold isinstance. intros Hne.
  destruct (hp_objs (st_heap st) !! i) as [o|]; [|done].
  intros ->%bool_decide_eq_true. by apply bool_decide_eq_false.
Qed.

(** C9: two calls of the factory, whatever their schemas and names (the
    same objects included), return two distinct type objects: the second
    call looks nothing up, it stores a type object at an index that was
    free, built from its own arguments only; no type object and no
    instance that existed before is changed, and nothing is an instance
    of both types. *)
Theorem factory_types_are_independent schema1 name1 schema2 name2 T1 T2 st0 st1 st st2 :
  validated_by schema1 name1 st0 = (Ok T1, st1) →
  extends st1 st →
  validated_by schema2 name2 st = (Ok T2, st2) →
  T1 ≠ T2 ∧
  st_types st !! T2 = None ∧
  (∃ n2, name2 = OVal (VStr n2) ∧
         st_types st2 !! T2 = Some (GenericWrappedData_type schema2 n2)) ∧
  (∀ T cls, st_types st !! T = Some cls → st_types st2 !! T = Some cls) ∧
  st_heap st2 = st_heap st ∧
  (∀ st' i, isinstance st' i T1 = true → isinstance st' i T2 = false).
Proof.
  intros Hf1 Hext Hf2.
  destruct (validated_by_type _ _ _ _ _ _ Hf1 Hext) as (n1 & _ & HT1).
  pose proof (validated_by_type _ _ _ _ _ _ Hf2 (extends_refl _)) as (n2 & Hn2 & HT2).
  apply validated_by_inv in Hf2 as (n2' & -> & _ & -> & ->).
  assert (Hne : T1 ≠ length (st_types st)).
  { apply lookup_lt_Some in HT1. lia. }
  split; [done|].
  split; [by apply lookup_ge_None_2|].
  split; [by exists n2|].
  split; [intros T cls; apply extends_lookup, extends_add_type|].
  split; [done|].
  intros st' i. by apply isinstance_functional.
Qed.

Lemma factory_types_are_independent_witness :
  0 ≠ 1 ∧
  st_types (add_type (GenericWrappedData_type (OSchema Samples.positive_x) "ValidatedData")
              state0) !! 1 = None.
Proof.
  pose proof (factory_types_are_independent
           (OSchema Samples.positive_x) default_name
           (OSchema Samples.positive_x) default_name 0 1 state0
           (add_type (GenericWrappedData_type (OSchema Samples.positive_x) "ValidatedData") state0)
           (add_type (GenericWrappedData_type (OSchema Samples.positive_x) "ValidatedData") state0)
           (add_type (GenericWrappedData_type (OSchema Samples.positive_x) "ValidatedData")
              (add_type (GenericWrappedData_type (OSchema Samples.positive_x) "ValidatedData")
                 state0))) as H.
  destruct H as (H1 & H2 & _).
  - reflexivity.
  - exists []. reflexivity.
  - reflexivity.
  - split; [exact H1 | exact H2].
Defined.

(** ** The argument count *)

Lemma patched_wrong_count schema old_init args st :
  length args ≠ 2 →
  patched schema old_init args st = (Raise AssertionError, st).
Proof.
  intros Hlen. unfold patched, bind, py_assert.
  by rewrite bool_decide_eq_false_2.
Qed.

(** C10: a type made by the metaclass (the factory's types among them)
    has [patched] as its initializer; called with an argument tuple whose
    length is not two, [patched] raises [AssertionError] and leaves the
    store as it was.  So constructing an instance from any number of
    values other than one raises [AssertionError], with no call of
    [validate] recorded and no type added. *)
Theorem wrong_argument_count_asserts name bases nmspc T st0 st1 st :
  ValidatedMeta_new name bases nmspc st0 = (Ok T, st1) →
  extends st1 st →
  ∃ cls schema old_init,
    st_types st !! T = Some cls ∧
    ty_dict cls !! "__init__" = Some (OPatched schema old_init) ∧
    (∀ args st', length args ≠ 2 →
       call (OPatched schema old_init) args st' = (Raise AssertionError, st')) ∧
    (∀ args, length args ≠ 1 →
       ∃ st', type_call T args st = (Raise AssertionError, st') ∧
              hp_trace (st_heap st') = hp_trace (st_heap st) ∧
              st_types st' = st_types st).
Proof.
  intros (schema & old_init & n & _ & _ & _ & _ & -> & ->)%ValidatedMeta_new_inv Hext.
  eexists _, schema, old_init.
  split; [eapply extends_lookup; [done|apply add_type_lookup]|].
  split; [apply lookup_insert_eq|].
  split; [intros args st'; apply patched_wrong_count|].
  intros args Hlen. eexists.
  erewrite type_call_unfold;
    [|eapply extends_lookup; [done|apply add_type_lookup]|apply lookup_insert_eq].
  simpl. rewrite patched_wrong_count by (simpl; lia). done.
Qed.

Lemma wrong_argument_count_asserts_witness :
  ∃ st',
    type_call 0 [VBool true; VNone]
      (add_type (GenericWrappedData_type (OSchema Samples.use_int) "ValidatedData") state0)
    = (Raise AssertionError, st') ∧
    hp_trace (st_heap st') = [] ∧
    st_types st' = [GenericWrappedData_type (OSchema Samples.use_int) "ValidatedData"].
Proof.
  destruct (wrong_argument_count_asserts "GenericWrappedData" [ObjectProxy]
              (GenericWrappedData_body (OSchema Samples.use_int) default_name) 0 state0
              (add_type (GenericWrappedData_type (OSchema Samples.use_int) "ValidatedData") state0)
              (add_type (GenericWrappedData_type (OSchema Samples.use_int) "ValidatedData") state0))
    as (cls & schema & old_init & _ & _ & _ & H).
  - reflexivity.
  - exists []. reflexivity.
  - apply (H [VBool true; VNone]). simpl. lia.
Defined.

(** ** Definition-time checks *)

Lemma plain_value_no_schema v : is_schema_class (OVal v) = false.
Proof. by destruct v. Qed.

(** C7: defining a type under the metaclass fails with [AssertionError],
    and stores nothing, when the class body has no [__schema__], when its
    [__schema__] is not an instance of [Schema], [And] or [Or] (a plain
    value, for one), and when it has no [__init__].  A class body whose
    [__schema__] is an [And] or an [Or] of schemas, which has an
    [__init__] and whose [__name__], if any, is a [str], defines a
    type. *)
Theorem definition_time_checks name bases nmspc st :
  (nmspc !! "__schema__" = None →
     ValidatedMeta_new name bases nmspc st = (Raise AssertionError, st)) ∧
  (∀ schema, nmspc !! "__schema__" = Some schema → is_schema_class schema = false →
     ValidatedMeta_new name bases nmspc st = (Raise AssertionError, st)) ∧
  (∀ v, nmspc !! "__schema__" = Some (OVal v) →
     ValidatedMeta_new name bases nmspc st = (Raise AssertionError, st)) ∧
  (nmspc !! "__init__" = None →
     ValidatedMeta_new name bases nmspc st = (Raise AssertionError, st)) ∧
  (∀ id parts old_init n,
     nmspc !! "__schema__" = Some (OSchema (And id parts)) ∨
     nmspc !! "__schema__" = Some (OSchema (Or id parts)) →
     nmspc !! "__init__" = Some old_init →
     default (OVal (VStr name)) (nmspc !! "__name__") = OVal (VStr n) →
     ∃ T st', ValidatedMeta_new name bases nmspc st = (Ok T, st') ∧
              st_types st !! T = None ∧
              ∃ cls, st_types st' !! T = Some cls ∧ ty_name cls = n).
Proof.
  rewrite ValidatedMeta_new_unfold.
  split; [by intros ->|].
  split; [by intros schema -> ->|].
  split; [by intros v ->; rewrite plain_value_no_schema|].
  split.
  { intros ->. destruct (nmspc !! "__schema__") as [schema|]; [|done].
    by destruct (is_schema_class schema). }
  intros id parts old_init n Hs Hi Hn.
  assert (∃ schema, nmspc !! "__schema__" = Some schema ∧ is_schema_class schema = true)
    as (schema & -> & ->) by (destruct Hs; eauto).
  rewrite Hi, Hn. simpl.
  eexists _, _. split; [done|].
  split; [by apply lookup_ge_None_2|].
  eexists. split; [apply (add_type_lookup _ st)|done].
Qed.

Lemma definition_time_checks_witness :
  (ValidatedMeta_new "Point" [ObjectProxy]
     (<["__init__" := OFunc GenericWrappedData_init]> ∅) state0
   = (Raise AssertionError, state0)) ∧
  (∃ T st',
     ValidatedMeta_new "Point" [ObjectProxy]
       (<["__init__" := OFunc GenericWrappedData_init]>
          (<["__schema__" := OSchema (And 7 [Samples.use_int; Samples.use_int])]> ∅)) state0
     = (Ok T, st') ∧
     st_types state0 !! T = None ∧
     ∃ cls, st_types st' !! T = Some cls ∧ ty_name cls = "Point").
Proof.
  split.
  - apply (proj1 (definition_time_checks "Point" [ObjectProxy]
                    (<["__init__" := OFunc GenericWrappedData_init]> ∅) state0)).
    reflexivity.
  - destruct (definition_time_checks "Point" [ObjectProxy]
                (<["__init__" := OFunc GenericWrappedData_init]>
                   (<["__schema__" := OSchema (And 7 [Samples.use_int; Samples.use_int])]> ∅))
                state0) as (_ & _ & _ & _ & H).
    apply (H 7 [Samples.use_int; Samples.use_int] (OFunc GenericWrappedData_init) "Point").
    + left. reflexivity.
    + reflexivity.
    + reflexivity.
Defined.

(** ** The initializer's signature *)

Lemma call_wrong_arity fn args st :
  length args ≠ fn_arity fn →
  call (OFunc fn) args st =
    (Raise (TypeError (fn_name fn +:+ "() got a wrong number of positional arguments")), st).
Proof.
  intros Hlen. simpl. by rewrite bool_decide_eq_false_2.
Qed.

(** C6, as the code has it: the metaclass accepts whatever the class body
    binds to [__init__] and does not look at its parameters, so a type
    whose initializer does not take the receiver and one value is defined
    all the same.  The mismatch shows at call time: constructing an
    instance from a value that the schema accepts raises [TypeError] when
    [patched] calls the initializer. *)
Theorem initializer_signature_checked_at_call name bases nmspc s old_init n st :
  nmspc !! "__schema__" = Some (OSchema s) →
  is_schema_class (OSchema s) = true →
  nmspc !! "__init__" = Some old_init →
  default (OVal (VStr name)) (nmspc !! "__name__") = OVal (VStr n) →
  ∃ T st1,
    ValidatedMeta_new name bases nmspc st = (Ok T, st1) ∧
    ∀ fn, old_init = OFunc fn → fn_arity fn ≠ 2 →
      ∀ st' v r, extends st1 st' → sc_validate s v = Ok r →
        ∃ st'', type_call T [v] st' =
                  (Raise (TypeError (fn_name fn +:+ "() got a wrong number of positional arguments")),
                   st'').
Proof.
  intros Hs Hcls Hi Hn.
  rewrite ValidatedMeta_new_unfold, Hs, Hcls, Hi, Hn. simpl.
  eexists _, _. split; [done|].
  intros fn -> Har st' v r Hext Hv. eexists.
  erewrite type_call_unfold;
    [|eapply extends_lookup; [done|apply (add_type_lookup _ st)]|apply lookup_insert_eq].
  rewrite call_patched, (patched_validated _ _ _ _ _ _ Hv).
  by rewrite call_wrong_arity by (simpl; lia).
Qed.

Lemma initializer_signature_checked_at_call_witness :
  ∃ T st1,
    ValidatedMeta_new "Pair" [ObjectProxy]
      (<["__init__" := OFunc Samples.init_two_values]>
         (<["__schema__" := OSchema Samples.use_int]> ∅)) state0 = (Ok T, st1) ∧
    ∃ st'', type_call T [VBool true] st1 =
              (Raise (TypeError "__init__() got a wrong number of positional arguments"), st'').
Proof.
  destruct (initializer_signature_checked_at_call "Pair" [ObjectProxy]
              (<["__init__" := OFunc Samples.init_two_values]>
                 (<["__schema__" := OSchema Samples.use_int]> ∅))
              Samples.use_int (OFunc Samples.init_two_values) "Pair" state0)
    as (T & st1 & Hdef & Hcall).
  - reflexivity.
  - reflexivity.
  - reflexivity.
  - reflexivity.
  - exists T, st1. split; [exact Hdef|].
    apply (Hcall Samples.init_two_values eq_refl) with (r := VInt 1).
    + simpl. lia.
    + exists []. symmetry. apply app_nil_r.
    + reflexivity.
Defined.

(** C6, as the claim has it, fails: a class body whose initializer takes
    two values beside the receiver is defined without an error; the error
    comes when an instance is constructed. *)
Lemma initializer_arity_not_checked_at_definition :
  fn_arity Samples.init_two_values ≠ 2 ∧
  fst (ValidatedMeta_new "Pair" [ObjectProxy]
         (<["__init__" := OFunc Samples.init_two_values]>
            (<["__schema__" := OSchema Samples.use_int]> ∅)) state0) = Ok 0 ∧
  fst (type_call 0 [VBool true]
         (snd (ValidatedMeta_new "Pair" [ObjectProxy]
                 (<["__init__" := OFunc Samples.init_two_values]>
                    (<["__schema__" := OSchema Samples.use_int]> ∅)) state0)))
  = Raise (TypeError "__init__() got a wrong number of positional arguments").
Proof.
  split; [simpl; lia|]. split; reflexivity.
Qed.

(** ** Transparency *)

Section Forwarding.
Variable dm : data_model.
Variables (T : nat) (s : validator) (n : string) (r : value) (i : nat).
Variable st : pystate.
Hypothesis Hobj : hp_objs (st_heap st) !! i = Some {| ob_type := T; ob_wrapped := Some r |}.
Hypothesis Htype : st_types st !! T = Some (GenericWrappedData_type (OSchema s) n).

Lemma proxy_wrapped_filled : proxy_wrapped i st = (Ok r, st).
Proof. unfold proxy_wrapped. by rewrite Hobj. Qed.

Lemma proxy_getattr_schema :
  proxy_getattr dm i "__schema__" st = (Ok (OSchema s), st).
Proof.
  unfold proxy_getattr, exposed_schema. rewrite Hobj. cbn [ob_type]. by rewrite Htype.
Qed.

Lemma proxy_getattr_forward attr :
  attr ≠ "__schema__" → proxy_member attr = false →
  proxy_getattr dm i attr st = (result_map OVal (dm_getattr dm r attr), st).
Proof.
  intros Hnot [Hw Hp]%orb_false_iff.
  unfold proxy_getattr. rewrite Hobj.
  rewrite (bool_decide_eq_false_2 _ Hnot), Hw, Hp.
  unfold bind. rewrite proxy_wrapped_filled.
  by destruct (dm_getattr dm r attr).
Qed.

Lemma proxy_getitem_forward key :
  proxy_getitem dm i key st = (dm_getitem dm r key, st).
Proof.
  unfold proxy_getitem, bind. rewrite proxy_wrapped_filled.
  by destruct (dm_getitem dm r key).
Qed.

Lemma proxy_eq_forward other :
  proxy_eq dm i other st = (dm_eq dm r other, st).
Proof.
  unfold proxy_eq, bind. rewrite proxy_wrapped_filled.
  by destruct (dm_eq dm r other).
Qed.

Lemma proxy_binop_forward op other :
  proxy_binop dm op i other st = (dm_binop dm op r other, st).
Proof.
  unfold proxy_binop, bind. rewrite proxy_wrapped_filled.
  by destruct (dm_binop dm op r other).
Qed.

Lemma proxy_rbinop_forward op other :
  proxy_rbinop dm op other i st = (dm_binop dm op other r, st).
Proof.
  unfold proxy_rbinop, bind. rewrite proxy_wrapped_filled.
  by destruct (dm_binop dm op other r).
Qed.
End Forwarding.

Lemma after_call_obj T s v slot st :
  hp_objs (st_heap (after_call T s v slot st)) !! length (hp_objs (st_heap st)) =
    Some {| ob_type := T; ob_wrapped := slot |}.
Proof. unfold after_call; simpl. by rewrite lookup_app_r, Nat.sub_diag. Qed.



(** ** The invariant of the instances *)

Lemma type_call_no_type st T args :
  st_types st !! T = None →
  type_call T args st = (Raise (TypeError "object is not callable"), st).
Proof. intros HT. unfold type_call. by rewrite HT. Qed.

Lemma type_call_generic_count st T s n args :
  st_types st !! T = Some (GenericWrappedData_type (OSchema s) n) →
  length args ≠ 1 →
  type_call T args st = (Raise AssertionError, after_new T st).
Proof.
  intros HT Hlen.
  rewrite (type_call_unfold _ _ _ _ _ HT (GenericWrappedData_type_init _ _)).
  by rewrite call_patched, patched_wrong_count by (simpl; lia).
Qed.

Lemma type_call_generic_cases st T s n args res st' :
  st_types st !! T = Some (GenericWrappedData_type (OSchema s) n) →
  type_call T args st = (res, st') →
  (length args ≠ 1 ∧ res = Raise AssertionError ∧ st' = after_new T st) ∨
  (∃ v r, args = [v] ∧ sc_validate s v = Ok r ∧
          res = Ok (VRef (length (hp_objs (st_heap st)))) ∧
          st' = after_call T s v (Some r) st) ∨
  (∃ v e, args = [v] ∧ sc_validate s v = Raise e ∧
          res = Raise e ∧ st' = after_call T s v None st).
Proof.
  intros HT Hcall.
  destruct (decide (length args = 1)) as [Hlen|Hlen].
  - destruct args as [|v [|]]; simplify_eq/=. right.
    destruct (sc_validate s v) as [r|e] eqn:Hv.
    + rewrite (type_call_generic_ok _ _ _ _ _ _ HT Hv) in Hcall.
      left. exists v, r. by simplify_eq.
    + rewrite (type_call_generic_raise _ _ _ _ _ _ HT Hv) in Hcall.
      right. exists v, e. by simplify_eq.
  - rewrite (type_call_generic_count _ _ _ _ _ HT Hlen) in Hcall.
    left. by simplify_eq.
Qed.

Lemma validated_slot_mono st st' o r :
  extends st st' →
  hp_trace (st_heap st) `prefix_of` hp_trace (st_heap st') →
  validated_slot st o r → validated_slot st' o r.
Proof.
  intros Hext [k Hk] (s & n & v & HT & Hv & Hev).
  exists s, n, v. split; [by eapply extends_lookup|]. split; [done|].
  rewrite Hk. apply elem_of_app. by left.
Qed.

Lemma store_inv_add_type s n st :
  store_inv st → store_inv (add_type (GenericWrappedData_type (OSchema s) n) st).
Proof.
  intros [Hty Hobj]. split.
  - intros T cls. unfold add_type; simpl.
    intros [[_ HT]|[_ <-]]%lookup_snoc_Some; eauto.
  - intros i o r Hi Hr.
    apply (validated_slot_mono st); [apply extends_add_type|done|by eapply Hobj].
Qed.

Lemma store_inv_after_new T st : store_inv st → store_inv (after_new T st).
Proof.
  intros [Hty Hobj]. split; [done|].
  intros i o r [[_ Hi]|[_ <-]]%lookup_snoc_Some Hr; [|done].
  apply (validated_slot_mono st); [by unfold extends|done|by eapply Hobj].
Qed.

Lemma store_inv_after_call T s n v slot st :
  st_types st !! T = Some (GenericWrappedData_type (OSchema s) n) →
  (∀ r, slot = Some r → sc_validate s v = Ok r) →
  store_inv st → store_inv (after_call T s v slot st).
Proof.
  intros HT Hslot [Hty Hobj]. split; [done|].
  intros i o r [[_ Hi]|[_ <-]]%lookup_snoc_Some Hr.
  - apply (validated_slot_mono st);
      [by unfold extends|by apply prefix_app_r|by eapply Hobj].
  - exists s, n, v. split; [done|]. split; [by apply Hslot|].
    simpl. apply elem_of_app. right. by apply list_elem_of_singleton.
Qed.

Lemma client_step_inv w w' : world_inv w → client_step w w' → world_inv w'.
Proof.
  intros [Hst Hheld] Hstep.
  destruct Hstep as [w schema name res st' Hf|w T args i st' Hc|w T args e st' Hc].
  - destruct res as [T|e].
    + apply validated_by_inv in Hf as (n & -> & [s ->]%is_schema_class_inv & -> & ->).
      split; [by apply store_inv_add_type|done].
    + apply ValidatedMeta_new_raise in Hf as ->. by split.
  - destruct (st_types (w_state w) !! T) as [cls|] eqn:HT;
      [|by rewrite type_call_no_type in Hc].
    destruct Hst as [Hty Hobj]. destruct (Hty _ _ HT) as (s & n & ->).
    destruct (type_call_generic_cases _ _ _ _ _ _ _ HT Hc)
      as [(_ & [=] & _)|[(v & r & -> & Hv & [= ->] & ->)|(v & e & _ & _ & [=] & _)]].
    split; simpl.
    + eapply store_inv_after_call; [done| |done]. by intros r' [= <-].
    + intros j [->|Hj]%elem_of_cons.
      * eexists _, r. split; [apply lookup_snoc_Some; by right|done].
      * destruct (Hheld _ Hj) as (o & r' & Ho & Hr').
        exists o, r'. split; [|done]. apply lookup_snoc_Some. left.
        split; [by eapply lookup_lt_Some|done].
  - destruct (st_types (w_state w) !! T) as [cls|] eqn:HT;
      [|by rewrite type_call_no_type in Hc; simplify_eq].
    destruct Hst as [Hty Hobj]. destruct (Hty _ _ HT) as (s & n & ->).
    assert (Hkeep : ∀ slot st'',
      hp_objs (st_heap st'') = hp_objs (st_heap (w_state w)) ++ [slot] →
      ∀ j, j ∈ w_held w →
        ∃ o r, hp_objs (st_heap st'') !! j = Some o ∧ ob_wrapped o = Some r).
    { intros slot st'' Heq j Hj. destruct (Hheld _ Hj) as (o & r' & Ho & Hr').
      exists o, r'. split; [|done]. rewrite Heq. apply lookup_snoc_Some. left.
      split; [by eapply lookup_lt_Some|done]. }
    destruct (type_call_generic_cases _ _ _ _ _ _ _ HT Hc)
      as [(_ & _ & ->)|[(v & r & _ & _ & [=] & _)|(v & e' & -> & Hv & _ & ->)]].
    + split; simpl;
        [by apply store_inv_after_new
        |exact (Hkeep _ (after_new T (w_state w)) eq_refl)].
    + split; simpl;
        [|exact (Hkeep _ (after_call T s v None (w_state w)) eq_refl)].
      eapply store_inv_after_call; [done| |done]. by intros r' [=].
Qed.

Lemma world0_inv : world_inv world0.
Proof.
  split; [split|]; simpl.
  - intros T cls. by rewrite lookup_nil.
  - intros i o r. by rewrite lookup_nil.
  - intros i Hi. by apply elem_of_nil in Hi.
Qed.

Lemma reachable_inv w : reachable w → world_inv w.
Proof.
  induction 1 as [|w w' _ IH Hstep]; [apply world0_inv|by eapply client_step_inv].
Qed.

(** C3: in every state that calls of the factory and constructions can
    reach, each instance that a construction handed out has its slot
    filled, with a value that the [validate] of its type's schema
    returned; and no proxy of the store, handed out or not, has its slot
    filled with anything else. *)
Theorem instances_hold_validated_values w :
  reachable w →
  (∀ i, i ∈ w_held w →
     ∃ o r, hp_objs (st_heap (w_state w)) !! i = Some o ∧
            proxy_wrapped i (w_state w) = (Ok r, w_state w) ∧
            validated_slot (w_state w) o r) ∧
  (∀ i o r, hp_objs (st_heap (w_state w)) !! i = Some o → ob_wrapped o = Some r →
     validated_slot (w_state w) o r).
Proof.
  intros [[Hty Hobj] Hheld]%reachable_inv. split; [|done].
  intros i Hi. destruct (Hheld _ Hi) as (o & r & Ho & Hr).
  exists o, r. split; [done|]. split; [|by eapply Hobj].
  unfold proxy_wrapped. by rewrite Ho, Hr.
Qed.

Lemma instances_hold_validated_values_witness :
  ∃ o r,
    hp_objs (st_heap (after_call 0 Samples.use_int (VBool true) (Some (VInt 1))
                        (add_type (GenericWrappedData_type (OSchema Samples.use_int)
                                     "ValidatedData") state0))) !! 0 = Some o ∧
    proxy_wrapped 0
      (after_call 0 Samples.use_int (VBool true) (Some (VInt 1))
         (add_type (GenericWrappedData_type (OSchema Samples.use_int) "ValidatedData") state0))
    = (Ok r,
       after_call 0 Samples.use_int (VBool true) (Some (VInt 1))
         (add_type (GenericWrappedData_type (OSchema Samples.use_int) "ValidatedData") state0)) ∧
    validated_slot
      (after_call 0 Samples.use_int (VBool true) (Some (VInt 1))
         (add_type (GenericWrappedData_type (OSchema Samples.use_int) "ValidatedData") state0))
      o r.
Proof.
  apply (proj1 (instances_hold_validated_values
    {| w_state := after_call 0 Samples.use_int (VBool true) (Some (VInt 1))
                    (add_type (GenericWrappedData_type (OSchema Samples.use_int)
                                 "ValidatedData") state0);
       w_held := [0] |}
    (reach_step _ _
       (reach_step _ _ reach_init
          (step_factory world0 (OSchema Samples.use_int) default_name (Ok 0)
             (add_type (GenericWrappedData_type (OSchema Samples.use_int) "ValidatedData")
                state0)
             eq_refl))
       (step_construct
          {| w_state := add_type (GenericWrappedData_type (OSchema Samples.use_int)
                                    "ValidatedData") state0;
             w_held := [] |}
          0 [VBool true] 0
          (after_call 0 Samples.use_int (VBool true) (Some (VInt 1))
             (add_type (GenericWrappedData_type (OSchema Samples.use_int) "ValidatedData")
                state0))
          eq_refl))) 0).
  apply list_elem_of_here.
Defined.

(** * Further properties of the module *)

(** ** What the factory answers *)

(** X1: the factory raises [AssertionError] for an object that is no
    instance of [Schema], [And] or [Or], whatever the name is; for a
    schema and a name that is no [str] it raises the [TypeError] of
    [type.__new__]; in both cases nothing is stored.  For a schema and a
    [str] it returns a type. *)
Theorem factory_outcomes schema name st :
  (is_schema_class schema = false →
     validated_by schema name st = (Raise AssertionError, st)) ∧
  (is_schema_class schema = true → (∀ n, name ≠ OVal (VStr n)) →
     validated_by schema name st =
       (Raise (TypeError "type.__new__() argument 1 must be str"), st)) ∧
  (is_schema_class schema = true → ∀ n, name = OVal (VStr n) →
     validated_by schema name st =
       (Ok (length (st_types st)), add_type (GenericWrappedData_type schema n) st)).
Proof.
  split; [|split].
  - intros Hcls. unfold validated_by. rewrite ValidatedMeta_new_unfold.
    by rewrite GenericWrappedData_body_schema, Hcls.
  - intros Hcls Hname. unfold validated_by. rewrite ValidatedMeta_new_unfold.
    rewrite GenericWrappedData_body_schema, Hcls, GenericWrappedData_body_init.
    rewrite GenericWrappedData_body_name. simpl.
    destruct name as [[| | |n| | |]| | |]; try done. by destruct (Hname n).
  - intros Hcls n ->. by apply validated_by_ok.
Qed.

Lemma factory_outcomes_witness :
  validated_by (OSchema Samples.bare_use) (OVal (VInt 5)) state0
    = (Raise AssertionError, state0) ∧
  validated_by (OSchema Samples.use_int) (OVal (VInt 5)) state0
    = (Raise (TypeError "type.__new__() argument 1 must be str"), state0).
Proof.
  split.
  - apply (proj1 (factory_outcomes (OSchema Samples.bare_use) (OVal (VInt 5)) state0)).
    reflexivity.
  - apply (proj1 (proj2 (factory_outcomes (OSchema Samples.use_int) (OVal (VInt 5)) state0))).
    + reflexivity.
    + intros n. discriminate.
Defined.

(** ** What the metaclass stores *)

(** X2: the metaclass replaces the [__init__] of the class body by
    [patched], which captures the schema and the initializer of the class
    body, and leaves the rest of the class body alone: [__schema__] and
    every attribute whose name does not start with two underscores reads
    on the type as the class body bound it. *)
Theorem metaclass_keeps_class_body `{inh : Inherited} name bases nmspc T st0 st1 st :
  ValidatedMeta_new name bases nmspc st0 = (Ok T, st1) →
  extends st1 st →
  (∃ schema old_init,
     nmspc !! "__schema__" = Some schema ∧ nmspc !! "__init__" = Some old_init ∧
     type_getattr T "__init__" st = (Ok (OPatched schema old_init), st)) ∧
  (∀ attr o,
     String.prefix "__" attr = false ∨ attr = "__schema__" →
     nmspc !! attr = Some o →
     type_getattr T attr st = (Ok o, st)).
Proof.
  intros (schema & old_init & n & Hs & _ & Hi & _ & -> & ->)%ValidatedMeta_new_inv Hext.
  pose proof (extends_lookup _ _ _ _ Hext (add_type_lookup _ st0)) as HT.
  split.
  - exists schema, old_init. split; [done|]. split; [done|].
    eapply type_getattr_lookup; [done|done|apply lookup_insert_eq].
  - intros attr o Hattr Ho.
    assert (attr ≠ "__init__" ∧ attr ≠ "__name__") as [Hne1 Hne2].
    { destruct Hattr as [Hp| ->]; [|done]. split; by intros ->. }
    eapply type_getattr_lookup; [done|done|]. simpl.
    by rewrite lookup_insert_ne.
Qed.

Lemma metaclass_keeps_class_body_witness :
  type_getattr (inh := Samples.sample_inherited) 0 "limit"
    (snd (ValidatedMeta_new "Bounded" [ObjectProxy]
            (<["limit" := OVal (VInt 10)]>
               (<["__init__" := OFunc Samples.init_boxed]>
                  (<["__schema__" := OSchema Samples.use_int]> ∅))) state0))
  = (Ok (OVal (VInt 10)),
     snd (ValidatedMeta_new "Bounded" [ObjectProxy]
            (<["limit" := OVal (VInt 10)]>
               (<["__init__" := OFunc Samples.init_boxed]>
                  (<["__schema__" := OSchema Samples.use_int]> ∅))) state0)).
Proof.
  destruct (metaclass_keeps_class_body (inh := Samples.sample_inherited)
              "Bounded" [ObjectProxy]
              (<["limit" := OVal (VInt 10)]>
                 (<["__init__" := OFunc Samples.init_boxed]>
                    (<["__schema__" := OSchema Samples.use_int]> ∅))) 0 state0
              (snd (ValidatedMeta_new "Bounded" [ObjectProxy]
                      (<["limit" := OVal (VInt 10)]>
                         (<["__init__" := OFunc Samples.init_boxed]>
                            (<["__schema__" := OSchema Samples.use_int]> ∅))) state0))
              (snd (ValidatedMeta_new "Bounded" [ObjectProxy]
                      (<["limit" := OVal (VInt 10)]>
                         (<["__init__" := OFunc Samples.init_boxed]>
                            (<["__schema__" := OSchema Samples.use_int]> ∅))) state0)))
    as [_ H].
  - reflexivity.
  - exists []. reflexivity.
  - apply (H "limit" (OVal (VInt 10))); [left|]; reflexivity.
Defined.

(** X3: a type made by the metaclass is named by the [__name__] of its
    class body when the class body binds one, and by the name of the class
    statement otherwise; this name is what [T.__name__] gives and what the
    label of the type shows. *)
Theorem metaclass_type_name `{inh : Inherited} name bases nmspc T st0 st1 st :
  ValidatedMeta_new name bases nmspc st0 = (Ok T, st1) →
  extends st1 st →
  ∃ n,
    (nmspc !! "__name__" = Some (OVal (VStr n)) ∨
     nmspc !! "__name__" = None ∧ n = name) ∧
    type_getattr T "__name__" st = (Ok (OVal (VStr n)), st) ∧
    ValidatedMeta_str T st = (Ok ("<schema-validated data: " +:+ n +:+ ">"), st).
Proof.
  intros (schema & old_init & n & _ & _ & _ & Hn & -> & ->)%ValidatedMeta_new_inv Hext.
  pose proof (extends_lookup _ _ _ _ Hext (add_type_lookup _ st0)) as HT.
  exists n. split.
  - destruct (nmspc !! "__name__") as [o|]; simpl in Hn; simplify_eq; eauto.
  - split; [|by rewrite (ValidatedMeta_str_type _ _ _ HT)].
    unfold type_getattr, bind, type_name. simpl. by rewrite HT.
Qed.

Lemma metaclass_type_name_witness :
  ∃ n,
    ((<["__init__" := OFunc Samples.init_boxed]>
        (<["__schema__" := OSchema Samples.use_int]> ∅) : gmap string pyobj) !! "__name__"
       = Some (OVal (VStr n)) ∨
     (<["__init__" := OFunc Samples.init_boxed]>
        (<["__schema__" := OSchema Samples.use_int]> ∅) : gmap string pyobj) !! "__name__"
       = None ∧ n = "Boxed") ∧
    type_getattr (inh := Samples.sample_inherited) 0 "__name__"
      (snd (ValidatedMeta_new "Boxed" [ObjectProxy]
              (<["__init__" := OFunc Samples.init_boxed]>
                 (<["__schema__" := OSchema Samples.use_int]> ∅)) state0))
    = (Ok (OVal (VStr n)),
       snd (ValidatedMeta_new "Boxed" [ObjectProxy]
              (<["__init__" := OFunc Samples.init_boxed]>
                 (<["__schema__" := OSchema Samples.use_int]> ∅)) state0)) ∧
    ValidatedMeta_str 0
      (snd (ValidatedMeta_new "Boxed" [ObjectProxy]
              (<["__init__" := OFunc Samples.init_boxed]>
                 (<["__schema__" := OSchema Samples.use_int]> ∅)) state0))
    = (Ok ("<schema-validated data: " +:+ n +:+ ">"),
       snd (ValidatedMeta_new "Boxed" [ObjectProxy]
              (<["__init__" := OFunc Samples.init_boxed]>
                 (<["__schema__" := OSchema Samples.use_int]> ∅)) state0)).
Proof.
  apply (metaclass_type_name (inh := Samples.sample_inherited) "Boxed" [ObjectProxy]
           (<["__init__" := OFunc Samples.init_boxed]>
              (<["__schema__" := OSchema Samples.use_int]> ∅)) 0 state0
           (snd (ValidatedMeta_new "Boxed" [ObjectProxy]
                   (<["__init__" := OFunc Samples.init_boxed]>
                      (<["__schema__" := OSchema Samples.use_int]> ∅)) state0))).
  - reflexivity.
  - exists []. reflexivity.
Defined.

(** ** What [patched] does with the initializer of the class body *)

Lemma after_validate_after_new T s v st :
  after_validate s v (after_new T st) = after_call T s v None st.
Proof. reflexivity. Qed.

Lemma type_call_patched st T cls s old_init v :
  st_types st !! T = Some cls →
  ty_dict cls !! "__init__" = Some (OPatched (OSchema s) old_init) →
  type_call T [v] st =
    match sc_validate s v with
    | Ok r =>
        match call old_init [VRef (length (hp_objs (st_heap st))); r]
                (after_call T s v None st) with
        | (Ok _, st') => (Ok (VRef (length (hp_objs (st_heap st)))), st')
        | (Raise e, st') => (Raise e, st')
        end
    | Raise e => (Raise e, after_call T s v None st)
    end.
Proof.
  intros HT Hi. rewrite (type_call_unfold _ _ _ _ _ HT Hi), call_patched.
  destruct (sc_validate s v) as [r|e] eqn:Hv.
  - by rewrite (patched_validated _ _ _ _ _ _ Hv), after_validate_after_new.
  - by rewrite (patched_rejected _ _ _ _ _ _ Hv), after_validate_after_new.
Qed.

Lemma metaclass_type_init name bases nmspc T st0 st1 st s old_init :
  ValidatedMeta_new name bases nmspc st0 = (Ok T, st1) →
  extends st1 st →
  nmspc !! "__schema__" = Some (OSchema s) →
  nmspc !! "__init__" = Some old_init →
  ∃ cls, st_types st !! T = Some cls ∧
         ty_dict cls !! "__init__" = Some (OPatched (OSchema s) old_init).
Proof.
  intros (schema & old & n & Hs & _ & Hi & _ & -> & ->)%ValidatedMeta_new_inv Hext Hs' Hi'.
  simplify_eq. eexists. split.
  - eapply extends_lookup; [done|apply add_type_lookup].
  - apply lookup_insert_eq.
Qed.

(** X4: for a type that the metaclass made from any class body, a
    construction from a value that the schema accepts calls the
    initializer of the class body with the receiver and the result of the
    validation (the raw value is not passed on), after the call of
    [validate] has been recorded; what the initializer answers is what the
    construction answers.  When the initializer is a function of two
    parameters, this is its body run on the receiver and the result. *)
Theorem initializer_receives_validation_result
    name bases nmspc T st0 st1 st s old_init v r :
  ValidatedMeta_new name bases nmspc st0 = (Ok T, st1) →
  extends st1 st →
  nmspc !! "__schema__" = Some (OSchema s) →
  nmspc !! "__init__" = Some old_init →
  sc_validate s v = Ok r →
  type_call T [v] st =
    match call old_init [VRef (length (hp_objs (st_heap st))); r]
            (after_call T s v None st) with
    | (Ok _, st') => (Ok (VRef (length (hp_objs (st_heap st)))), st')
    | (Raise e, st') => (Raise e, st')
    end ∧
  ∀ fn, old_init = OFunc fn → fn_arity fn = 2 →
    type_call T [v] st =
      match fn_body fn [VRef (length (hp_objs (st_heap st))); r]
              (st_heap (after_call T s v None st)) with
      | (Ok _, h) =>
          (Ok (VRef (length (hp_objs (st_heap st)))),
           {| st_types := st_types st; st_heap := h |})
      | (Raise e, h) => (Raise e, {| st_types := st_types st; st_heap := h |})
      end.
Proof.
  intros Hdef Hext Hs Hi Hv.
  destruct (metaclass_type_init _ _ _ _ _ _ _ _ _ Hdef Hext Hs Hi) as (cls & HT & Hinit).
  pose proof (type_call_patched _ _ _ _ _ v HT Hinit) as Hcall.
  rewrite Hv in Hcall. split; [done|].
  intros fn -> Har. rewrite Hcall. simpl.
  rewrite bool_decide_eq_true_2 by (by rewrite Har).
  unfold lift_heap. simpl.
  by destruct (fn_body fn _ _) as [[]].
Qed.

Lemma initializer_receives_validation_result_witness :
  ∃ st',
    type_call 0 [VBool true]
      (snd (ValidatedMeta_new "Boxed" [ObjectProxy]
              (<["__init__" := OFunc Samples.init_boxed]>
                 (<["__schema__" := OSchema Samples.use_int]> ∅)) state0))
    = (Ok (VRef 0), st') ∧
    proxy_wrapped 0 st' = (Ok (VList [VInt 1]), st').
Proof.
  destruct (initializer_receives_validation_result "Boxed" [ObjectProxy]
              (<["__init__" := OFunc Samples.init_boxed]>
                 (<["__schema__" := OSchema Samples.use_int]> ∅)) 0 state0
              (snd (ValidatedMeta_new "Boxed" [ObjectProxy]
                      (<["__init__" := OFunc Samples.init_boxed]>
                         (<["__schema__" := OSchema Samples.use_int]> ∅)) state0))
              (snd (ValidatedMeta_new "Boxed" [ObjectProxy]
                      (<["__init__" := OFunc Samples.init_boxed]>
                         (<["__schema__" := OSchema Samples.use_int]> ∅)) state0))
              Samples.use_int (OFunc Samples.init_boxed) (VBool true) (VInt 1))
    as [_ H].
  - reflexivity.
  - exists []. reflexivity.
  - reflexivity.
  - reflexivity.
  - reflexivity.
  - eexists. split.
    + rewrite (H Samples.init_boxed eq_refl eq_refl). reflexivity.
    + reflexivity.
Defined.

(** X5: for a type that the metaclass made from any class body, a
    construction from a value that the schema rejects raises the error of
    [validate] and never calls the initializer of the class body: the
    store it leaves is the same for every initializer, with the new
    instance's slot empty and the one call of [validate] recorded. *)
Theorem rejected_value_skips_initializer
    name bases nmspc T st0 st1 st s old_init v e :
  ValidatedMeta_new name bases nmspc st0 = (Ok T, st1) →
  extends st1 st →
  nmspc !! "__schema__" = Some (OSchema s) →
  nmspc !! "__init__" = Some old_init →
  sc_validate s v = Raise e →
  type_call T [v] st = (Raise e, after_call T s v None st).
Proof.
  intros Hdef Hext Hs Hi Hv.
  destruct (metaclass_type_init _ _ _ _ _ _ _ _ _ Hdef Hext Hs Hi) as (cls & HT & Hinit).
  by rewrite (type_call_patched _ _ _ _ _ v HT Hinit), Hv.
Qed.

Lemma rejected_value_skips_initializer_witness :
  type_call 0 [VStr "a"]
    (snd (ValidatedMeta_new "Boxed" [ObjectProxy]
            (<["__init__" := OFunc Samples.init_boxed]>
               (<["__schema__" := OSchema Samples.use_int]> ∅)) state0))
  = (Raise (SchemaError "int(...) raised"),
     after_call 0 Samples.use_int (VStr "a") None
       (snd (ValidatedMeta_new "Boxed" [ObjectProxy]
               (<["__init__" := OFunc Samples.init_boxed]>
                  (<["__schema__" := OSchema Samples.use_int]> ∅)) state0))).
Proof.
  apply (rejected_value_skips_initializer "Boxed" [ObjectProxy]
           (<["__init__" := OFunc Samples.init_boxed]>
              (<["__schema__" := OSchema Samples.use_int]> ∅)) 0 state0
           (snd (ValidatedMeta_new "Boxed" [ObjectProxy]
                   (<["__init__" := OFunc Samples.init_boxed]>
                      (<["__schema__" := OSchema Samples.use_int]> ∅)) state0))
           _ Samples.use_int (OFunc Samples.init_boxed)).
  - reflexivity.
  - exists []. reflexivity.
  - reflexivity.
  - reflexivity.
  - reflexivity.
Defined.

(** ** Reusing the initializer of a generated type *)

Lemma generic_init_stores T obj r objs trace types :
  length objs = obj →
  call (OFunc GenericWrappedData_init) [VRef obj; r]
    {| st_types := types;
       st_heap := {| hp_objs := objs ++ [{| ob_type := T; ob_wrapped := None |}];
                     hp_trace := trace |} |}
  = (Ok tt,
     {| st_types := types;
        st_heap := {| hp_objs := objs ++ [{| ob_type := T; ob_wrapped := Some r |}];
                      hp_trace := trace |} |}).
Proof.
  intros <-. simpl. unfold lift_heap, ObjectProxy_init. simpl.
  rewrite lookup_app_r, Nat.sub_diag by done. simpl.
  by rewrite insert_fresh.
Qed.

Lemma proxy_wrapped_after_validate s x st j :
  fst (proxy_wrapped j (after_validate s x st)) = fst (proxy_wrapped j st).
Proof.
  unfold proxy_wrapped, after_validate; simpl.
  destruct (hp_objs (st_heap st) !! j) as [o|]; [|done].
  by destruct (ob_wrapped o).
Qed.

(** X6: a class body that derives from a generated type [T1], declares a
    schema [S2] of its own and takes over [T1.__init__] gets both
    validations in a row: a construction from [v] calls [S2.validate(v)],
    then [S1.validate] on its result, and wraps what [S1] returned.  When
    [S2] rejects [v], [S1.validate] is not called; when [S1] rejects the
    result of [S2], its error is raised and no slot is filled. *)
Theorem reused_initializer_chains_validation `{inh : Inherited}
    s1 name1 T1 st0 st1 sta init1 s2 name nmspc T2 st2 st v :
  validated_by (OSchema s1) name1 st0 = (Ok T1, st1) →
  extends st1 sta →
  type_getattr T1 "__init__" sta = (Ok init1, sta) →
  nmspc !! "__schema__" = Some (OSchema s2) →
  nmspc !! "__init__" = Some init1 →
  ValidatedMeta_new name [BaseType T1] nmspc sta = (Ok T2, st2) →
  extends st2 st →
  (∀ r2 r1, sc_validate s2 v = Ok r2 → sc_validate s1 r2 = Ok r1 →
     ∃ i st',
       type_call T2 [v] st = (Ok (VRef i), st') ∧
       proxy_wrapped i st' = (Ok r1, st') ∧
       hp_trace (st_heap st') =
         hp_trace (st_heap st) ++ [EvValidate (sc_id s2) v; EvValidate (sc_id s1) r2]) ∧
  (∀ e, sc_validate s2 v = Raise e →
     ∃ st',
       type_call T2 [v] st = (Raise e, st') ∧
       hp_trace (st_heap st') = hp_trace (st_heap st) ++ [EvValidate (sc_id s2) v]) ∧
  (∀ r2 e, sc_validate s2 v = Ok r2 → sc_validate s1 r2 = Raise e →
     ∃ st',
       type_call T2 [v] st = (Raise e, st') ∧
       hp_trace (st_heap st') =
         hp_trace (st_heap st) ++ [EvValidate (sc_id s2) v; EvValidate (sc_id s1) r2] ∧
       ∀ j w, fst (proxy_wrapped j st') = Ok w → fst (proxy_wrapped j st) = Ok w).
Proof.
  intros Hf Hexta Hget Hs Hi Hdef Hext.
  destruct (validated_by_type _ _ _ _ _ _ Hf Hexta) as (n1 & _ & HT1).
  assert (Hne : "__init__" ≠ "__name__") by done.
  rewrite (type_getattr_lookup _ _ _ _ _ HT1 Hne
             (GenericWrappedData_type_init _ _)) in Hget.
  injection Hget as <-.
  destruct (metaclass_type_init _ _ _ _ _ _ _ _ _ Hdef Hext Hs Hi) as (cls & HT & Hinit).
  pose proof (type_call_patched _ _ _ _ _ v HT Hinit) as Hcall.
  split; [|split].
  - intros r2 r1 Hv2 Hv1. rewrite Hv2 in Hcall.
    rewrite call_patched, (patched_validated _ _ _ _ _ _ Hv1) in Hcall.
    unfold after_validate, after_call in Hcall. cbn [st_types st_heap hp_objs hp_trace] in Hcall.
    rewrite generic_init_stores in Hcall by done.
    eexists _, _. split; [exact Hcall|]. split.
    + unfold proxy_wrapped. cbn [st_heap hp_objs].
      by rewrite lookup_app_r, Nat.sub_diag.
    + cbn [st_heap hp_trace]. by rewrite <-app_assoc.
  - intros e Hv2. rewrite Hv2 in Hcall. eexists. split; [exact Hcall|done].
  - intros r2 e Hv2 Hv1. rewrite Hv2 in Hcall.
    rewrite call_patched, (patched_rejected _ _ _ _ _ _ Hv1) in Hcall.
    eexists. split; [exact Hcall|]. split.
    + unfold after_validate, after_call. cbn [st_heap hp_trace]. by rewrite <-app_assoc.
    + intros j w. rewrite proxy_wrapped_after_validate.
      apply (proxy_wrapped_after_raise T2 s2 v st j w).
Qed.

Lemma reused_initializer_chains_validation_witness :
  ∃ i st',
    type_call 1 [VDict [(VStr "x", VInt 5)]]
      (snd (ValidatedMeta_new "Both" [BaseType 0]
              (<["__init__" := OPatched (OSchema Samples.positive_x)
                                 (OFunc GenericWrappedData_init)]>
                 (<["__schema__" := OSchema Samples.positive_x]> ∅))
              (add_type (GenericWrappedData_type (OSchema Samples.positive_x) "ValidatedData")
                 state0)))
    = (Ok (VRef i), st') ∧
    proxy_wrapped i st' = (Ok (VDict [(VStr "x", VInt 5)]), st') ∧
    hp_trace (st_heap st') =
      [] ++ [EvValidate 1 (VDict [(VStr "x", VInt 5)]);
             EvValidate 1 (VDict [(VStr "x", VInt 5)])].
Proof.
  destruct (reused_initializer_chains_validation (inh := Samples.sample_inherited)
              Samples.positive_x default_name 0 state0
              (add_type (GenericWrappedData_type (OSchema Samples.positive_x) "ValidatedData")
                 state0)
              (add_type (GenericWrappedData_type (OSchema Samples.positive_x) "ValidatedData")
                 state0)
              (OPatched (OSchema Samples.positive_x) (OFunc GenericWrappedData_init))
              Samples.positive_x "Both"
              (<["__init__" := OPatched (OSchema Samples.positive_x)
                                 (OFunc GenericWrappedData_init)]>
                 (<["__schema__" := OSchema Samples.positive_x]> ∅))
              1
              (snd (ValidatedMeta_new "Both" [BaseType 0]
                      (<["__init__" := OPatched (OSchema Samples.positive_x)
                                         (OFunc GenericWrappedData_init)]>
                         (<["__schema__" := OSchema Samples.positive_x]> ∅))
                      (add_type (GenericWrappedData_type (OSchema Samples.positive_x)
                                   "ValidatedData") state0)))
              (snd (ValidatedMeta_new "Both" [BaseType 0]
                      (<["__init__" := OPatched (OSchema Samples.positive_x)
                                         (OFunc GenericWrappedData_init)]>
                         (<["__schema__" := OSchema Samples.positive_x]> ∅))
                      (add_type (GenericWrappedData_type (OSchema Samples.positive_x)
                                   "ValidatedData") state0)))
              (VDict [(VStr "x", VInt 5)]))
    as (H & _ & _).
  - reflexivity.
  - exists []. reflexivity.
  - reflexivity.
  - reflexivity.
  - reflexivity.
  - reflexivity.
  - exists []. reflexivity.
  - apply (H (VDict [(VStr "x", VInt 5)]) (VDict [(VStr "x", VInt 5)])); reflexivity.
Defined.

(** ** What a construction leaves alone *)

(** X7: a construction on a generated type, whatever the arguments are
    and whether it succeeds or raises, adds exactly one object to the
    store and leaves every type and every object that was there as it
    was (an instance made earlier still wraps its value).  It calls
    [validate] exactly once, on the raw value, when it is given one value,
    and not at all for any other number of values. *)
Theorem construction_frame s name T st0 st1 st args res st' :
  validated_by (OSchema s) name st0 = (Ok T, st1) →
  extends st1 st →
  type_call T args st = (res, st') →
  st_types st' = st_types st ∧
  length (hp_objs (st_heap st')) = S (length (hp_objs (st_heap st))) ∧
  (∀ j o, hp_objs (st_heap st) !! j = Some o → hp_objs (st_heap st') !! j = Some o) ∧
  (∀ j r, proxy_wrapped j st = (Ok r, st) → proxy_wrapped j st' = (Ok r, st')) ∧
  hp_trace (st_heap st') =
    hp_trace (st_heap st) ++
    match args with
    | [v] => [EvValidate (sc_id s) v]
    | _ => []
    end.
Proof.
  intros Hf Hext Hcall.
  destruct (validated_by_type _ _ _ _ _ _ Hf Hext) as (n & _ & HT).
  assert (Hshape : ∃ slot tr,
    st' = {| st_types := st_types st;
             st_heap := {| hp_objs := hp_objs (st_heap st) ++ [slot];
                           hp_trace := hp_trace (st_heap st) ++ tr |} |} ∧
    tr = match args with [v] => [EvValidate (sc_id s) v] | _ => [] end).
  { destruct (type_call_generic_cases _ _ _ _ _ _ _ HT Hcall)
      as [(Hlen & _ & ->)|[(v & r & -> & _ & _ & ->)|(v & e & -> & _ & _ & ->)]].
    - eexists _, []. split; [unfold after_new; by rewrite app_nil_r|].
      by destruct args as [|? [|]].
    - by eexists _, _.
    - by eexists _, _. }
  destruct Hshape as (slot & tr & -> & ->). simpl.
  split; [done|]. split; [rewrite length_app; simpl; lia|].
  assert (Hkeep : ∀ j o, hp_objs (st_heap st) !! j = Some o →
                         (hp_objs (st_heap st) ++ [slot]) !! j = Some o).
  { intros j o Hj. apply lookup_app_l_Some. done. }
  split; [done|]. split; [|done].
  intros j r. unfold proxy_wrapped. simpl.
  destruct (hp_objs (st_heap st) !! j) as [o|] eqn:Hj; [|done].
  rewrite (Hkeep _ _ Hj). destruct (ob_wrapped o); [|done]. by intros [= ->].
Qed.

Lemma construction_frame_witness :
  proxy_wrapped 0
    (snd (type_call 0 [VStr "a"]
            (after_call 0 Samples.use_int (VBool true) (Some (VInt 1))
               (add_type (GenericWrappedData_type (OSchema Samples.use_int) "ValidatedData")
                  state0))))
  = (Ok (VInt 1),
     snd (type_call 0 [VStr "a"]
            (after_call 0 Samples.use_int (VBool true) (Some (VInt 1))
               (add_type (GenericWrappedData_type (OSchema Samples.use_int) "ValidatedData")
                  state0)))).
Proof.
  destruct (construction_frame Samples.use_int default_name 0 state0
              (add_type (GenericWrappedData_type (OSchema Samples.use_int) "ValidatedData")
                 state0)
              (after_call 0 Samples.use_int (VBool true) (Some (VInt 1))
                 (add_type (GenericWrappedData_type (OSchema Samples.use_int) "ValidatedData")
                    state0))
              [VStr "a"]
              (Raise (SchemaError "int(...) raised"))
              (snd (type_call 0 [VStr "a"]
                      (after_call 0 Samples.use_int (VBool true) (Some (VInt 1))
                         (add_type (GenericWrappedData_type (OSchema Samples.use_int)
                                      "ValidatedData") state0)))))
    as (_ & _ & _ & H & _).
  - reflexivity.
  - exists []. reflexivity.
  - reflexivity.
  - apply (H 0 (VInt 1)). reflexivity.
Defined.

(** ** What a definition leaves alone *)

(** X8: a definition under the metaclass, whether it returns a type or
    raises, creates and changes no instance and calls no [validate]: the
    schema of the class body is only stored.  It leaves the types that
    exist in place, and when it raises it stores nothing at all. *)
Theorem definition_touches_no_instance name bases nmspc st res st' :
  ValidatedMeta_new name bases nmspc st = (res, st') →
  st_heap st' = st_heap st ∧
  extends st st' ∧
  (∀ e, res = Raise e → st' = st).
Proof.
  intros Hdef. destruct res as [T|e].
  - apply ValidatedMeta_new_inv in Hdef as (? & ? & ? & _ & _ & _ & _ & _ & ->).
    split; [done|]. split; [apply extends_add_type|done].
  - apply ValidatedMeta_new_raise in Hdef as ->.
    split; [done|]. split; [apply extends_refl|done].
Qed.

Lemma definition_touches_no_instance_witness :
  st_heap (snd (ValidatedMeta_new "Boxed" [ObjectProxy]
                  (<["__init__" := OFunc Samples.init_boxed]>
                     (<["__schema__" := OSchema Samples.use_int]> ∅))
                  (after_call 0 Samples.use_int (VBool true) (Some (VInt 1))
                     (add_type (GenericWrappedData_type (OSchema Samples.use_int)
                                  "ValidatedData") state0))))
  = st_heap (after_call 0 Samples.use_int (VBool true) (Some (VInt 1))
               (add_type (GenericWrappedData_type (OSchema Samples.use_int)
                            "ValidatedData") state0)).
Proof.
  apply (definition_touches_no_instance "Boxed" [ObjectProxy]
           (<["__init__" := OFunc Samples.init_boxed]>
              (<["__schema__" := OSchema Samples.use_int]> ∅))
           (after_call 0 Samples.use_int (VBool true) (Some (VInt 1))
              (add_type (GenericWrappedData_type (OSchema Samples.use_int)
                           "ValidatedData") state0))
           (Ok 1)).
  reflexivity.
Defined.

(** ** Labels and names *)

Lemma append_last_inj (c : Ascii.ascii) (a b : string) :
  a +:+ String c "" = b +:+ String c "" → a = b.
Proof.
  revert b. induction a as [|x a IH]; intros [|y b] Heq; simplify_eq/=.
  - done.
  - by destruct b.
  - by destruct a.
  - f_equal. by apply IH.
Qed.

(** X9: the label of a type tells its name and nothing more.  Two types
    of the factory are distinct type objects, and their labels are equal
    exactly when they were given equal names; so the types of all calls
    that use one name (the default name, for one) display alike. *)
Theorem labels_follow_names schema1 schema2 n1 n2 T1 T2 st0 st1 st st2 st3 :
  validated_by schema1 (OVal (VStr n1)) st0 = (Ok T1, st1) →
  extends st1 st →
  validated_by schema2 (OVal (VStr n2)) st = (Ok T2, st2) →
  extends st2 st3 →
  T1 ≠ T2 ∧
  (ValidatedMeta_str T1 st3 = ValidatedMeta_str T2 st3 ↔ n1 = n2).
Proof.
  intros Hf1 Hext1 Hf2 Hext2.
  assert (Hext2' : extends st st3).
  { eapply extends_trans; [|done].
    apply validated_by_inv in Hf2 as (? & _ & _ & _ & ->). apply extends_add_type. }
  destruct (validated_by_type _ _ _ _ _ _ Hf1 (extends_trans _ _ _ Hext1 Hext2'))
    as (n1' & [= <-] & HT1).
  destruct (validated_by_type _ _ _ _ _ _ Hf2 Hext2) as (n2' & [= <-] & HT2).
  split.
  - destruct (validated_by_type _ _ _ _ _ _ Hf1 Hext1) as (? & _ & HT1').
    apply lookup_lt_Some in HT1'.
    apply validated_by_inv in Hf2 as (? & _ & _ & -> & _). lia.
  - rewrite (ValidatedMeta_str_type _ _ _ HT1), (ValidatedMeta_str_type _ _ _ HT2). simpl.
    split; [|by intros ->].
    intros [= Heq]. apply (inj (String.append _)) in Heq.
    by apply append_last_inj in Heq.
Qed.

Lemma labels_follow_names_witness :
  0 ≠ 1 ∧
  (ValidatedMeta_str 0
     (add_type (GenericWrappedData_type (OSchema Samples.use_int) "ValidatedData")
        (add_type (GenericWrappedData_type (OSchema Samples.positive_x) "ValidatedData")
           state0))
   = ValidatedMeta_str 1
       (add_type (GenericWrappedData_type (OSchema Samples.use_int) "ValidatedData")
          (add_type (GenericWrappedData_type (OSchema Samples.positive_x) "ValidatedData")
             state0))
   ↔ "ValidatedData" = "ValidatedData").
Proof.
  apply (labels_follow_names (OSchema Samples.positive_x) (OSchema Samples.use_int)
           "ValidatedData" "ValidatedData" 0 1 state0
           (add_type (GenericWrappedData_type (OSchema Samples.positive_x) "ValidatedData")
              state0)
           (add_type (GenericWrappedData_type (OSchema Samples.positive_x) "ValidatedData")
              state0)
           (add_type (GenericWrappedData_type (OSchema Samples.use_int) "ValidatedData")
              (add_type (GenericWrappedData_type (OSchema Samples.positive_x) "ValidatedData")
                 state0))).
  - reflexivity.
  - exists []. reflexivity.
  - reflexivity.
  - exists []. reflexivity.
Defined.

(** ** Initializing an instance again *)

(** X10: the [__init__] of a generated type validates whenever it is
    called, also on an instance that exists already: called with an
    instance of the type and a value that the schema accepts, it replaces
    the wrapped value by the result of the validation and touches no
    other object; called with a value that the schema rejects, it raises
    the error of [validate] and leaves every object, this instance
    included, as it was. *)
Theorem initializing_again_validates `{inh : Inherited} s name T st0 st1 st init i w v :
  validated_by (OSchema s) name st0 = (Ok T, st1) →
  extends st1 st →
  type_getattr T "__init__" st = (Ok init, st) →
  hp_objs (st_heap st) !! i = Some {| ob_type := T; ob_wrapped := w |} →
  (∀ r, sc_validate s v = Ok r →
     ∃ st',
       call init [VRef i; v] st = (Ok tt, st') ∧
       hp_objs (st_heap st') !! i = Some {| ob_type := T; ob_wrapped := Some r |} ∧
       (∀ j, j ≠ i → hp_objs (st_heap st') !! j = hp_objs (st_heap st) !! j) ∧
       st_types st' = st_types st) ∧
  (∀ e, sc_validate s v = Raise e →
     ∃ st',
       call init [VRef i; v] st = (Raise e, st') ∧
       hp_objs (st_heap st') = hp_objs (st_heap st) ∧
       st_types st' = st_types st).
Proof.
  intros Hf Hext Hget Hobj.
  destruct (validated_by_type _ _ _ _ _ _ Hf Hext) as (n & _ & HT).
  assert (Hne : "__init__" ≠ "__name__") by done.
  rewrite (type_getattr_lookup _ _ _ _ _ HT Hne (GenericWrappedData_type_init _ _)) in Hget.
  injection Hget as <-. rewrite call_patched. split.
  - intros r Hv. rewrite (patched_validated _ _ _ _ _ _ Hv).
    simpl. unfold lift_heap, ObjectProxy_init. simpl. rewrite Hobj. simpl.
    eexists. split; [done|]. simpl.
    split; [apply list_lookup_insert_eq; by eapply lookup_lt_Some|].
    split; [|done]. intros j Hj. by apply list_lookup_insert_ne.
  - intros e Hv. rewrite (patched_rejected _ _ _ _ _ _ Hv). by eexists.
Qed.

Lemma initializing_again_validates_witness :
  ∃ st',
    call (OPatched (OSchema Samples.use_int) (OFunc GenericWrappedData_init))
      [VRef 0; VInt 7]
      (after_call 0 Samples.use_int (VBool true) (Some (VInt 1))
         (add_type (GenericWrappedData_type (OSchema Samples.use_int) "ValidatedData") state0))
    = (Ok tt, st') ∧
    hp_objs (st_heap st') !! 0 = Some {| ob_type := 0; ob_wrapped := Some (VInt 7) |}.
Proof.
  destruct (initializing_again_validates (inh := Samples.sample_inherited)
              Samples.use_int default_name 0 state0
              (add_type (GenericWrappedData_type (OSchema Samples.use_int) "ValidatedData")
                 state0)
              (after_call 0 Samples.use_int (VBool true) (Some (VInt 1))
                 (add_type (GenericWrappedData_type (OSchema Samples.use_int) "ValidatedData")
                    state0))
              (OPatched (OSchema Samples.use_int) (OFunc GenericWrappedData_init))
              0 (Some (VInt 1)) (VInt 7))
    as [H _].
  - reflexivity.
  - exists []. reflexivity.
  - reflexivity.
  - reflexivity.
  - destruct (H (VInt 7) eq_refl) as (st' & Hcall & Hslot & _).
    exists st'. split; [exact Hcall|exact Hslot].
Defined.
